(** * train_duq_cifar.py: a shallow embedding and its verified properties

    The program trains a DUQ classifier on CIFAR10.  This development
    embeds its control logic: the dataset split, the gradient penalty,
    the train and eval step functions, the ignite engines with their
    shared [Average] metrics, the epoch hook [log_results], [main] and
    the command-line entry point.

    Numerical kernels of the substrate (forward pass, cross-entropy,
    optimiser arithmetic) are an interface, [Substrate]; floating-point
    arithmetic is an interface too, [Scalar], with two instances: the
    real numbers, where exact statements about values are proved, and
    binary64 floats, where the definitions run. *)

From Stdlib Require Import ZArith List String Floats Uint63.
From Stdlib Require Import Reals Lra.
From stdpp Require Import gmap strings list sets.

(** ** Scalars *)

Class Scalar := {
  scalar : Type;
  s_of_Z : Z → scalar;
  s_add : scalar → scalar → scalar;
  s_sub : scalar → scalar → scalar;
  s_mul : scalar → scalar → scalar;
  s_div : scalar → scalar → scalar;
  s_sqrt : scalar → scalar;
}.

(** A decimal literal of the source, [n/d]. *)
Definition s_lit `{Scalar} (n d : Z) : scalar := s_div (s_of_Z n) (s_of_Z d).

Definition s_sum `{Scalar} (xs : list scalar) : scalar :=
  foldl s_add (s_of_Z 0) xs.

(** [t.mean()] of a one-dimensional tensor. *)
Definition s_mean `{Scalar} (xs : list scalar) : scalar :=
  s_div (s_sum xs) (s_of_Z (Z.of_nat (length xs))).

Definition real_scalar : Scalar := {|
  scalar := R;
  s_of_Z := IZR;
  s_add := Rplus;
  s_sub := Rminus;
  s_mul := Rmult;
  s_div := Rdiv;
  s_sqrt := sqrt;
|}.

Definition float_scalar : Scalar := {|
  scalar := float;
  s_of_Z := λ z, if (z <? 0)%Z then PrimFloat.opp (PrimFloat.of_uint63 (Uint63.of_Z (- z)))
                 else PrimFloat.of_uint63 (Uint63.of_Z z);
  s_add := PrimFloat.add;
  s_sub := PrimFloat.sub;
  s_mul := PrimFloat.mul;
  s_div := PrimFloat.div;
  s_sqrt := PrimFloat.sqrt;
|}.

(** ** Python values: exceptions, objects, the dataset classes *)

Inductive exn : Type :=
| AssertionError (msg : string)
| UnboundLocalError (name : string)
| AttributeError (attr : string)
| KeyError (key : string)
| IndexError
| TypeError
| ValueError (msg : string)
| RuntimeError (msg : string)
| RecursionError
| SystemExit (code : Z).

Definition loc := nat.

(** Modelled from the spec: the transforms of the dataset provider
    (utils/datasets.py is not part of the sources): "training dataset
    includes data augmentation, test dataset does not". *)
Inductive Transform := TrainAugmentation | TestPreprocessing.

Inductive pyval :=
| PRef (l : loc)
| PInts (xs : list nat)
| PTransform (t : Transform).

Inductive pyclass := VisionDataset | Subset.

(** An object is its class and its instance dictionary. *)
Record pyobj := PyObj { cls : pyclass; attrs : gmap string pyval }.

(** What [dataset[i]] yields: the stored image [source], preprocessed by
    the transform [preprocessing], paired with its integer label. *)
Record Sample := { source : nat; preprocessing : Transform }.

Definition recursion_limit : nat := 1000.

(** [dataset[i]].  A [VisionDataset] applies its own [transform]
    attribute to the stored image; [torch.utils.data.Subset.__getitem__]
    is [self.dataset[self.indices[idx]]] and reads no other attribute. *)
Fixpoint getitem_at (depth : nat) (h : gmap loc pyobj) (l : loc) (i : nat)
  : exn + (Sample * nat) :=
  match depth with
  | 0 => inl RecursionError
  | S depth' =>
      match h !! l with
      | None => inl TypeError
      | Some o =>
          match cls o with
          | VisionDataset =>
              match attrs o !! "targets", attrs o !! "transform" with
              | Some (PInts targets), Some (PTransform t) =>
                  match targets !! i with
                  | Some target => inr ({| source := i; preprocessing := t |}, target)
                  | None => inl IndexError
                  end
              | _, _ => inl (AttributeError "transform")
              end
          | Subset =>
              match attrs o !! "dataset", attrs o !! "indices" with
              | Some (PRef d), Some (PInts indices) =>
                  match indices !! i with
                  | Some j => getitem_at depth' h d j
                  | None => inl IndexError
                  end
              | _, _ => inl (AttributeError "dataset")
              end
          end
      end
  end.

Definition getitem := getitem_at recursion_limit.

(** [len(dataset)] *)
Definition py_len (h : gmap loc pyobj) (l : loc) : exn + nat :=
  match h !! l with
  | None => inl TypeError
  | Some o =>
      match cls o with
      | VisionDataset =>
          match attrs o !! "targets" with
          | Some (PInts targets) => inr (length targets)
          | _ => inl (AttributeError "targets")
          end
      | Subset =>
          match attrs o !! "indices" with
          | Some (PInts indices) => inr (length indices)
          | _ => inl (AttributeError "indices")
          end
      end
  end.

(** The instances as their constructors leave them. *)
Definition vision_object (targets : list nat) (t : Transform) : pyobj :=
  PyObj VisionDataset (<["transform" := PTransform t]> {["targets" := PInts targets]}).

Definition subset_object (dataset : loc) (indices : list nat) : pyobj :=
  PyObj Subset (<["indices" := PInts indices]> {["dataset" := PRef dataset]}).

(** ** random.shuffle and the 80/20 split *)

(** [x[i], x[j] = x[j], x[i]] *)
Definition swap (x : list nat) (i j : nat) : list nat :=
  match x !! i, x !! j with
  | Some a, Some b => <[j:=a]> (<[i:=b]> x)
  | _, _ => x
  end.

(** CPython's [random.shuffle]:
    [for i in reversed(range(1, len(x))): j = randbelow(i + 1); swap].
    The draws come from an explicit stream; [randbelow (i+1)] is the
    next draw reduced modulo [i+1].  Returns the unused draws. *)
Fixpoint shuffle_from (i : nat) (draws : list nat) (x : list nat)
  : list nat * list nat :=
  match i with
  | 0 => (x, draws)
  | S i' =>
      let i := S i' in
      let j := hd 0 draws mod (i + 1) in
      shuffle_from i' (tl draws) (swap x i j)
  end.

Definition random_shuffle (draws : list nat) (x : list nat) : list nat * list nat :=
  shuffle_from (length x - 1) draws x.

(** [int(f)] for a binary64 float: truncation toward zero. *)
Definition int_of_float (f : float) : Z :=
  match Prim2SF f with
  | S754_finite s m e =>
      let a := if (0 <=? e)%Z then (Z.pos m * 2 ^ e)%Z else (Z.pos m / 2 ^ (- e))%Z in
      if s then (- a)%Z else a
  | _ => 0%Z
  end.

(** [val_size = int(len(dataset) * 0.8)] *)
Definition val_size (len_dataset : nat) : nat :=
  Z.to_nat (int_of_float
    (PrimFloat.mul (PrimFloat.of_uint63 (Uint63.of_Z (Z.of_nat len_dataset)))
                   0x1.999999999999ap-1%float)).


(** ** torch.utils.data.DataLoader *)

Record DataLoader := {
  dl_dataset : loc;
  dl_batch_size : nat;
  dl_shuffle : bool;
  dl_drop_last : bool;
}.

(** [BatchSampler.__iter__]: append each index to the current batch,
    yield the batch when it is full; a last partial batch is yielded
    only when [drop_last] is off. *)
Fixpoint batch_sampler (batch_size : nat) (drop_last : bool)
    (batch : list nat) (sampler : list nat) : list (list nat) :=
  match sampler with
  | [] => if (0 <? length batch) && negb drop_last then [batch] else []
  | idx :: rest =>
      let batch := batch ++ [idx] in
      if length batch =? batch_size
      then batch :: batch_sampler batch_size drop_last [] rest
      else batch_sampler batch_size drop_last batch rest
  end.

(** The default collate function: the samples of a batch become the
    input tensor, their labels the target tensor. *)
Record Tensor := { data : list Sample; requires_grad : bool }.

Definition collate (items : list (Sample * nat)) : Tensor * list nat :=
  ({| data := items.*1; requires_grad := false |}, items.*2).

(** [[dataset[i] for i in batch]] *)
Fixpoint fetch (h : gmap loc pyobj) (dataset : loc) (batch : list nat)
  : exn + list (Sample * nat) :=
  match batch with
  | [] => inr []
  | i :: rest =>
      match getitem h dataset i with
      | inl e => inl e
      | inr item =>
          match fetch h dataset rest with
          | inl e => inl e
          | inr items => inr (item :: items)
          end
      end
  end.

(** ** Configuration *)

Record Config `{Scalar} := {
  architecture : string;
  batch_size : Z;
  epochs : Z;
  length_scale : scalar;
  centroid_size : Z;
  model_output_size : Z;
  learning_rate : scalar;
  l_gradient_penalty : scalar;
  gamma : scalar;
  weight_decay : scalar;
  final_model : bool;
  output_dir : string;
}.

(** Modelled from the spec: what [all_datasets["CIFAR10"]()] of
    utils/datasets.py returns, "(input shape, class count, training
    dataset, test dataset) where each dataset produces (input_tensor,
    integer_label) pairs".  The stored images are identified by their
    position; the label tables are the input. *)
Record Provider := {
  input_size : nat;
  num_classes : nat;
  train_targets : list nat;
  test_targets : list nat;
}.

Inductive ModelClass := WideResNet | resnet18.

(** ** The numerical substrate *)

Class Substrate `{Scalar} := {
  Params : Type;
  Momentum : Type;
  Centroids : Type;
  Grads : Type;
  g_add : Grads → Grads → Grads;
  g_scale : scalar → Grads → Grads;
  (** [model(x)]: per-class scores, one row per example *)
  net_forward : bool → Params → Centroids → list Sample → list (list scalar);
  (** the gradient of the summed scores with respect to the input, in
      the shape of the input: batch, channel, row, column *)
  net_input_grad : bool → Params → Centroids → list Sample →
                   list (list (list (list scalar)));
  (** [F.binary_cross_entropy(y_pred, y, reduction="mean")] *)
  binary_cross_entropy : list (list scalar) → list (list scalar) → scalar;
  (** what [backward()] deposits for the two loss terms *)
  bce_backward : Params → Centroids → list Sample → list (list scalar) → Grads;
  penalty_backward : Params → Centroids → list Sample → Grads;
  (** [torch.optim.SGD.step]: lr, momentum, weight decay *)
  sgd_step : scalar → scalar → scalar → Params → Momentum → Grads → Params * Momentum;
  (** [ResNet_DUQ.update_embeddings]: the EMA recurrence with decay gamma *)
  update_embeddings : scalar → Params → Centroids → list Sample →
                      list (list scalar) → Centroids;
  (** [(torch.argmax(y_pred, 1) == y).float().mean()] *)
  argmax_accuracy : list (list scalar) → list nat → scalar;
  get_cifar_svhn_ood : Params → Centroids → scalar * scalar;
  get_auroc_classification : gmap loc pyobj → loc → Params → Centroids → scalar * scalar;
}.

(** ** Events, the world, the monad *)

Inductive engine_id := Trainer | Evaluator.

Inductive component := Parameters | MomentumBuffers | CentroidEMA | Gradients.

Section Program.
Context `{Sc : Scalar} `{Su : !Substrate}.

Inductive printed :=
| PrintArgs (cfg : Config)
| PrintTrain (epoch : nat) (loss bce GP : scalar)
| PrintOod (accuracy auroc : scalar)
| PrintAuroc (auroc : scalar)
| PrintValid (epoch : nat) (acc loss bce GP : scalar)
| PrintTest (acc : scalar).

Inductive event :=
| EvUsageError (argument : string)
| EvMkdir (path : string)
| EvSummaryWriter (log_dir : string)
| EvAllDatasets (name : string)
| EvResNetDUQ (model_class : ModelClass)
| EvModelTrain
| EvModelEval
| EvZeroGrad
| EvRequiresGrad (flag : bool)
| EvForward
| EvBackward
| EvOptimizerStep
| EvNoGrad (entered : bool)
| EvUpdateEmbeddings (grad_mode : bool) (input_tracked : bool)
| EvMutated (c : component)
| EvEpochStarted (e : engine_id) (epoch : nat)
| EvIteration (e : engine_id)
| EvEpochCompleted (e : engine_id) (epoch : nat)
| EvOodEval (epoch : nat)
| EvAurocClassification (dataset : loc)
| EvPrint (line : printed)
| EvAddScalar (tag : string) (value : scalar) (global_step : nat)
| EvSchedulerStep
| EvSave (path : string)
| EvWriterClose.

Record EngineState := {
  epoch : nat;
  iteration : nat;
  metrics : gmap string scalar;
}.

Record World := {
  heap : gmap loc pyobj;
  next_loc : loc;
  rng : list nat;
  params : Params;
  momentum : Momentum;
  centroids : Centroids;
  grads : option Grads;
  training : bool;
  grad_enabled : bool;
  lr : scalar;
  last_epoch : nat;
  averages : gmap string (scalar * nat);
  trainer_state : EngineState;
  evaluator_state : EngineState;
  log : list event;
}.

Definition set_heap (f : gmap loc pyobj → gmap loc pyobj) (n : loc) (w : World) : World :=
  {| heap := f (heap w); next_loc := n; rng := rng w; params := params w;
     momentum := momentum w; centroids := centroids w; grads := grads w;
     training := training w; grad_enabled := grad_enabled w; lr := lr w;
     last_epoch := last_epoch w; averages := averages w;
     trainer_state := trainer_state w; evaluator_state := evaluator_state w;
     log := log w |}.

Definition set_rng (r : list nat) (w : World) : World :=
  {| heap := heap w; next_loc := next_loc w; rng := r; params := params w;
     momentum := momentum w; centroids := centroids w; grads := grads w;
     training := training w; grad_enabled := grad_enabled w; lr := lr w;
     last_epoch := last_epoch w; averages := averages w;
     trainer_state := trainer_state w; evaluator_state := evaluator_state w;
     log := log w |}.

Definition set_optimized (p : Params) (m : Momentum) (w : World) : World :=
  {| heap := heap w; next_loc := next_loc w; rng := rng w; params := p;
     momentum := m; centroids := centroids w; grads := grads w;
     training := training w; grad_enabled := grad_enabled w; lr := lr w;
     last_epoch := last_epoch w; averages := averages w;
     trainer_state := trainer_state w; evaluator_state := evaluator_state w;
     log := log w |}.

Definition set_centroids (c : Centroids) (w : World) : World :=
  {| heap := heap w; next_loc := next_loc w; rng := rng w; params := params w;
     momentum := momentum w; centroids := c; grads := grads w;
     training := training w; grad_enabled := grad_enabled w; lr := lr w;
     last_epoch := last_epoch w; averages := averages w;
     trainer_state := trainer_state w; evaluator_state := evaluator_state w;
     log := log w |}.

Definition set_grads (g : option Grads) (w : World) : World :=
  {| heap := heap w; next_loc := next_loc w; rng := rng w; params := params w;
     momentum := momentum w; centroids := centroids w; grads := g;
     training := training w; grad_enabled := grad_enabled w; lr := lr w;
     last_epoch := last_epoch w; averages := averages w;
     trainer_state := trainer_state w; evaluator_state := evaluator_state w;
     log := log w |}.

Definition set_training (b : bool) (w : World) : World :=
  {| heap := heap w; next_loc := next_loc w; rng := rng w; params := params w;
     momentum := momentum w; centroids := centroids w; grads := grads w;
     training := b; grad_enabled := grad_enabled w; lr := lr w;
     last_epoch := last_epoch w; averages := averages w;
     trainer_state := trainer_state w; evaluator_state := evaluator_state w;
     log := log w |}.

Definition set_grad_enabled (b : bool) (w : World) : World :=
  {| heap := heap w; next_loc := next_loc w; rng := rng w; params := params w;
     momentum := momentum w; centroids := centroids w; grads := grads w;
     training := training w; grad_enabled := b; lr := lr w;
     last_epoch := last_epoch w; averages := averages w;
     trainer_state := trainer_state w; evaluator_state := evaluator_state w;
     log := log w |}.

Definition set_schedule (rate : scalar) (e : nat) (w : World) : World :=
  {| heap := heap w; next_loc := next_loc w; rng := rng w; params := params w;
     momentum := momentum w; centroids := centroids w; grads := grads w;
     training := training w; grad_enabled := grad_enabled w; lr := rate;
     last_epoch := e; averages := averages w;
     trainer_state := trainer_state w; evaluator_state := evaluator_state w;
     log := log w |}.

Definition set_averages (a : gmap string (scalar * nat)) (w : World) : World :=
  {| heap := heap w; next_loc := next_loc w; rng := rng w; params := params w;
     momentum := momentum w; centroids := centroids w; grads := grads w;
     training := training w; grad_enabled := grad_enabled w; lr := lr w;
     last_epoch := last_epoch w; averages := a;
     trainer_state := trainer_state w; evaluator_state := evaluator_state w;
     log := log w |}.

Definition set_engine (e : engine_id) (s : EngineState) (w : World) : World :=
  {| heap := heap w; next_loc := next_loc w; rng := rng w; params := params w;
     momentum := momentum w; centroids := centroids w; grads := grads w;
     training := training w; grad_enabled := grad_enabled w; lr := lr w;
     last_epoch := last_epoch w; averages := averages w;
     trainer_state := match e with Trainer => s | Evaluator => trainer_state w end;
     evaluator_state := match e with Trainer => evaluator_state w | Evaluator => s end;
     log := log w |}.

Definition set_log (l : list event) (w : World) : World :=
  {| heap := heap w; next_loc := next_loc w; rng := rng w; params := params w;
     momentum := momentum w; centroids := centroids w; grads := grads w;
     training := training w; grad_enabled := grad_enabled w; lr := lr w;
     last_epoch := last_epoch w; averages := averages w;
     trainer_state := trainer_state w; evaluator_state := evaluator_state w;
     log := l |}.

Definition engine_state (e : engine_id) (w : World) : EngineState :=
  match e with Trainer => trainer_state w | Evaluator => evaluator_state w end.

(** State and exceptions; the world survives an exception, so that what
    happened before a failure can be read off it. *)
Definition M (A : Type) : Type := World → World * (exn + A).

Definition ret {A} (a : A) : M A := λ w, (w, inr a).

Definition bind {A B} (m : M A) (k : A → M B) : M B :=
  λ w, match m w with
       | (w', inr a) => k a w'
       | (w', inl e) => (w', inl e)
       end.

Definition raise {A} (e : exn) : M A := λ w, (w, inl e).

Definition lift {A} (r : exn + A) : M A := λ w, (w, r).

Definition gets {A} (f : World → A) : M A := λ w, (w, inr (f w)).

Definition modify (f : World → World) : M unit := λ w, (f w, inr ()).

Definition emit (e : event) : M unit := modify (λ w, set_log (log w ++ [e]) w).

End Program.

Notation "'let*' x ':=' m 'in' k" := (bind m (λ x, k))
  (at level 10, x pattern, m at level 100, k at level 200).
Notation "m ';;;' k" := (bind m (λ _, k))
  (at level 100, k at level 200, right associativity).

(** ** The program *)

Section Train.
Context `{Sc : Scalar} `{Su : !Substrate}.

(** *** Python helpers *)

Definition py_assert (cond : bool) (msg : string) : M unit :=
  if cond then ret () else raise (AssertionError msg).

Definition dict_get (d : gmap string scalar) (key : string) : M scalar :=
  match d !! key with
  | Some v => ret v
  | None => raise (KeyError key)
  end.

Fixpoint mfor {A} (xs : list A) (body : A → M unit) : M unit :=
  match xs with
  | [] => ret ()
  | x :: rest => body x ;;; mfor rest body
  end.

Definition alloc (o : pyobj) : M loc :=
  λ w, (set_heap (insert (next_loc w) o) (S (next_loc w)) w, inr (next_loc w)).

Definition getattr (l : loc) (name : string) : M pyval :=
  let* h := gets heap in
  match h !! l with
  | Some o =>
      match attrs o !! name with
      | Some v => ret v
      | None => raise (AttributeError name)
      end
  | None => raise TypeError
  end.

(** [obj.name = v]: an entry of the instance dictionary of [obj]. *)
Definition setattr (l : loc) (name : string) (v : pyval) : M unit :=
  let* h := gets heap in
  match h !! l with
  | Some o =>
      modify (λ w, set_heap (insert l (PyObj (cls o) (<[name:=v]> (attrs o))))
                            (next_loc w) w)
  | None => raise TypeError
  end.

Definition len (l : loc) : M nat :=
  let* h := gets heap in lift (py_len h l).

(** [random.shuffle(x)], drawing from the world's stream *)
Definition shuffle (x : list nat) : M (list nat) :=
  λ w, let '(x', rest) := random_shuffle (rng w) x in (set_rng rest w, inr x').

(** [torch.utils.data.Subset(dataset, indices)] *)
Definition Subset_new (dataset : loc) (indices : list nat) : M loc :=
  alloc (subset_object dataset indices).

Definition VisionDataset_new (targets : list nat) (t : Transform) : M loc :=
  alloc (vision_object targets t).

Definition all_datasets_CIFAR10 (ds : Provider) : M (nat * nat * loc * loc) :=
  emit (EvAllDatasets "CIFAR10") ;;;
  let* dataset := VisionDataset_new (train_targets ds) TrainAugmentation in
  let* test_dataset := VisionDataset_new (test_targets ds) TestPreprocessing in
  ret (input_size ds, num_classes ds, dataset, test_dataset).

(** [DataLoader(dataset, batch_size=..., shuffle=..., drop_last=...)];
    the batch sampler refuses a batch size that is not positive. *)
Definition DataLoader_new (dataset : loc) (batch_size : Z) (shuffle drop_last : bool)
  : M DataLoader :=
  if (batch_size <=? 0)%Z
  then raise (ValueError "batch_size should be a positive integer value")
  else ret {| dl_dataset := dataset; dl_batch_size := Z.to_nat batch_size;
              dl_shuffle := shuffle; dl_drop_last := drop_last |}.

(** The batches of one pass: a [RandomSampler] permutes the indices, a
    [SequentialSampler] keeps them in order. *)
Definition loader_batches (dl : DataLoader) : M (list (list nat)) :=
  let* n := len (dl_dataset dl) in
  let* sampler := (if dl_shuffle dl then shuffle (seq 0 n) else ret (seq 0 n)) in
  ret (batch_sampler (dl_batch_size dl) (dl_drop_last dl) [] sampler).

(** *** Tensors with their autograd graph *)

(** [y_pred = model(x)]: the scores; the graph back to the input, when
    the input was tracked during the forward pass, as the gradient of
    the summed scores with respect to it; and what the forward pass ran
    on, from which the parameter gradients derive. *)
Record Output := {
  scores : list (list scalar);
  input_graph : option (list (list (list (list scalar))));
  origin : Params * Centroids * list Sample;
}.

(** A zero-dimensional tensor: its value and what [backward()] would
    accumulate into the parameters' gradients. *)
Record Loss := { item : scalar; param_grad : Grads }.

Definition loss_add (a b : Loss) : Loss :=
  {| item := s_add (item a) (item b); param_grad := g_add (param_grad a) (param_grad b) |}.

Definition loss_scale (c : scalar) (a : Loss) : Loss :=
  {| item := s_mul c (item a); param_grad := g_scale c (param_grad a) |}.

Definition model_train : M unit := emit EvModelTrain ;;; modify (set_training true).

Definition model_eval : M unit := emit EvModelEval ;;; modify (set_training false).

Definition optimizer_zero_grad : M unit := emit EvZeroGrad ;;; modify (set_grads None).

Definition requires_grad_ (x : Tensor) (flag : bool) : M Tensor :=
  emit (EvRequiresGrad flag) ;;; ret {| data := data x; requires_grad := flag |}.

Definition model_call (x : Tensor) : M Output :=
  emit EvForward ;;;
  let* w := gets (λ w, w) in
  ret {| scores := net_forward (training w) (params w) (centroids w) (data x);
         input_graph :=
           if requires_grad x && grad_enabled w
           then Some (net_input_grad (training w) (params w) (centroids w) (data x))
           else None;
         origin := (params w, centroids w, data x) |}.

(** [F.one_hot(y, num_classes).float()] *)
Definition one_hot (y : list nat) (num_classes : nat) : list (list scalar) :=
  (λ c, (λ k, if k =? c then s_of_Z 1 else s_of_Z 0) <$> seq 0 num_classes) <$> y.

Definition F_binary_cross_entropy (y_pred : Output) (y : list (list scalar)) : Loss :=
  let '(p, c, x) := origin y_pred in
  {| item := binary_cross_entropy (scores y_pred) y;
     param_grad := bce_backward p c x y |}.

(** [torch.autograd.grad(outputs, inputs, grad_outputs=ones_like(outputs),
    create_graph=True)[0]]: refused when the input does not require
    grad, or is not part of the graph of the output. *)
Definition autograd_grad (outputs : Output) (inputs : Tensor)
  : exn + list (list (list (list scalar))) :=
  if requires_grad inputs then
    match input_graph outputs with
    | Some g => inr g
    | None => inl (RuntimeError
        "One of the differentiated Tensors appears to not have been used in the graph")
    end
  else inl (RuntimeError "One of the differentiated Tensors does not require grad").

(** [t.flatten(start_dim=1)] of a four-dimensional tensor *)
Definition flatten_start_dim_1 (t : list (list (list (list scalar)))) : list (list scalar) :=
  (λ example, concat (concat example)) <$> t.

Definition calc_gradients_input (x : Tensor) (y_pred : Output) : exn + list (list scalar) :=
  match autograd_grad y_pred x with
  | inl e => inl e
  | inr gradients =>
      let gradients := flatten_start_dim_1 gradients in
      inr gradients
  end.

(** [row.norm(2)] *)
Definition norm_2 (row : list scalar) : scalar :=
  s_sqrt (s_sum ((λ v, s_mul v v) <$> row)).

(** [(grad_norm - 1) ** 2] elementwise *)
Definition two_sided (grad_norm : list scalar) : list scalar :=
  (λ n, s_mul (s_sub n (s_of_Z 1)) (s_sub n (s_of_Z 1))) <$> grad_norm.

Definition calc_gradient_penalty (x : Tensor) (y_pred : Output) : exn + Loss :=
  match calc_gradients_input x y_pred with
  | inl e => inl e
  | inr gradients =>
      (* L2 norm *)
      let grad_norm := norm_2 <$> gradients in
      (* Two sided penalty *)
      let gradient_penalty := s_mean (two_sided grad_norm) in
      let '(p, c, d) := origin y_pred in
      inr {| item := gradient_penalty; param_grad := penalty_backward p c d |}
  end.

(** [loss.backward()] accumulates into the gradients. *)
Definition backward (l : Loss) : M unit :=
  emit EvBackward ;;;
  modify (λ w, set_grads (Some (match grads w with
                                | None => param_grad l
                                | Some g => g_add g (param_grad l)
                                end)) w).

(** [optimizer.step()]: SGD with momentum 0.9; parameters without a
    gradient are skipped. *)
Definition optimizer_step (cfg : Config) : M unit :=
  emit EvOptimizerStep ;;;
  let* w := gets (λ w, w) in
  match grads w with
  | None => ret ()
  | Some g =>
      let '(p, m) := sgd_step (lr w) (s_lit 9 10) (weight_decay cfg)
                              (params w) (momentum w) g in
      modify (set_optimized p m) ;;;
      emit (EvMutated Parameters) ;;;
      emit (EvMutated MomentumBuffers)
  end.

(** [with torch.no_grad(): body]: the previous mode is restored on exit,
    also when the body raises. *)
Definition no_grad {A} (body : M A) : M A :=
  λ w, let prev := grad_enabled w in
       let '(w', r) := (emit (EvNoGrad true) ;;; modify (set_grad_enabled false) ;;; body) w in
       (set_log (log w' ++ [EvNoGrad false]) (set_grad_enabled prev w'), r).

Definition model_update_embeddings (cfg : Config) (x : Tensor) (y : list (list scalar))
  : M unit :=
  let* w := gets (λ w, w) in
  emit (EvUpdateEmbeddings (grad_enabled w) (requires_grad x)) ;;;
  modify (set_centroids
            (update_embeddings (gamma cfg) (params w) (centroids w) (data x) y)) ;;;
  emit (EvMutated CentroidEMA).

(** *** The step functions (lines 99-146) *)

Definition step (cfg : Config) (num_classes : nat) (batch : Tensor * list nat)
  : M (scalar * scalar * scalar) :=
  model_train ;;;
  optimizer_zero_grad ;;;
  let '(x, y) := batch in
  let* x := requires_grad_ x true in
  let* y_pred := model_call x in
  let y := one_hot y num_classes in
  let bce := F_binary_cross_entropy y_pred y in
  let* gp := lift (calc_gradient_penalty x y_pred) in
  let loss := loss_add bce (loss_scale (l_gradient_penalty cfg) gp) in
  backward loss ;;;
  optimizer_step cfg ;;;
  let* x := requires_grad_ x false in
  no_grad (model_eval ;;; model_update_embeddings cfg x y) ;;;
  ret (item loss, item bce, item gp).

Definition eval_step (cfg : Config) (num_classes : nat) (batch : Tensor * list nat)
  : M (scalar * scalar * scalar) :=
  model_eval ;;;
  let '(x, y) := batch in
  let* x := requires_grad_ x true in
  let* y_pred := model_call x in
  let acc := argmax_accuracy (scores y_pred) y in
  let y := one_hot y num_classes in
  let bce := F_binary_cross_entropy y_pred y in
  let* gp := lift (calc_gradient_penalty x y_pred) in
  ret (acc, item bce, item gp).

(** *** ignite: Average metrics and engines

    Modelled from the spec (section 4.5) and the handlers that
    [Metric.attach] registers: an engine resets its attached metrics
    when an epoch starts, feeds them the step's output after every
    iteration, stores their values in [state.metrics] when the epoch
    completes, and then calls the handlers added with [@engine.on]. *)

Definition average_reset (name : string) : M unit :=
  modify (λ w, set_averages (<[name := (s_of_Z 0, 0)]> (averages w)) w).

Definition average_update (name : string) (v : scalar) : M unit :=
  modify (λ w, let a := default (s_of_Z 0, 0) (averages w !! name) in
               set_averages (<[name := (s_add a.1 v, S a.2)]> (averages w)) w).

Definition average_compute (name : string) : M scalar :=
  let* a := gets (λ w, default (s_of_Z 0, 0) (averages w !! name)) in
  ret (s_div a.1 (s_of_Z (Z.of_nat a.2))).

(** [output_transform=lambda x: x[k]] on the step's triple *)
Definition output_at (k : nat) (output : scalar * scalar * scalar) : scalar :=
  match k with
  | 0 => output.1.1
  | 1 => output.1.2
  | _ => output.2
  end.

Record Engine := {
  eid : engine_id;
  process_function : Tensor * list nat → M (scalar * scalar * scalar);
  attached : list (string * nat);
  on_epoch_completed : M unit;
}.

Definition update_state (e : engine_id) (f : EngineState → EngineState) : M unit :=
  modify (λ w, set_engine e (f (engine_state e w)) w).

Definition run_iteration (eng : Engine) (dl : DataLoader) (batch : list nat) : M unit :=
  let* h := gets heap in
  let* items := lift (fetch h (dl_dataset dl) batch) in
  update_state (eid eng)
    (λ s, {| epoch := epoch s; iteration := S (iteration s); metrics := metrics s |}) ;;;
  emit (EvIteration (eid eng)) ;;;
  let* output := process_function eng (collate items) in
  mfor (attached eng) (λ m, average_update m.1 (output_at m.2 output)).

(** One epoch up to, and including, the metrics' [completed] handlers. *)
Definition run_epoch_iterations (eng : Engine) (dl : DataLoader) (e : nat) : M unit :=
  update_state (eid eng)
    (λ s, {| epoch := e; iteration := iteration s; metrics := metrics s |}) ;;;
  emit (EvEpochStarted (eid eng) e) ;;;
  mfor (attached eng) (λ m, average_reset m.1) ;;;
  let* batches := loader_batches dl in
  mfor batches (run_iteration eng dl) ;;;
  emit (EvEpochCompleted (eid eng) e) ;;;
  mfor (attached eng) (λ m,
    let* v := average_compute m.1 in
    update_state (eid eng)
      (λ s, {| epoch := epoch s; iteration := iteration s;
               metrics := <[m.1 := v]> (metrics s) |})).

Definition run_epoch (eng : Engine) (dl : DataLoader) (e : nat) : M unit :=
  run_epoch_iterations eng dl e ;;;
  on_epoch_completed eng.

(** [engine.run(data, max_epochs)] *)
Definition engine_run (eng : Engine) (dl : DataLoader) (max_epochs : nat) : M unit :=
  update_state (eid eng) (λ _, {| epoch := 0; iteration := 0; metrics := ∅ |}) ;;;
  mfor (seq 1 max_epochs) (run_epoch eng dl).

(** *** The epoch hook (lines 186-233) *)

(** [trainer.state.epoch] *)
Definition trainer_state_epoch : M nat := gets (λ w, epoch (trainer_state w)).

(** [writer.add_scalar(tag, value, trainer.state.epoch)] *)
Definition writer_add_scalar (tag : string) (value : scalar) : M unit :=
  let* global_step := trainer_state_epoch in
  emit (EvAddScalar tag value global_step).

(** [MultiStepLR(optimizer, milestones=[60, 120, 160], gamma=0.2).step()] *)
Definition scheduler_step : M unit :=
  emit EvSchedulerStep ;;;
  modify (λ w, let e := S (last_epoch w) in
               set_schedule (if bool_decide (e ∈ [60; 120; 160])
                             then s_mul (lr w) (s_lit 2 10) else lr w) e w).

(** Lines 201-209, the body of [if trainer.state.epoch > 195]. *)
Definition ood_branch (val_dataset : loc) (epoch : nat) : M unit :=
  let* w := gets (λ w, w) in
  emit (EvOodEval epoch) ;;;
  let '(accuracy, auroc) := get_cifar_svhn_ood (params w) (centroids w) in
  emit (EvPrint (PrintOod accuracy auroc)) ;;;
  writer_add_scalar "OoD/test_accuracy" accuracy ;;;
  writer_add_scalar "OoD/roc_auc" auroc ;;;
  emit (EvAurocClassification val_dataset) ;;;
  let '(accuracy, auroc) :=
    get_auroc_classification (heap w) val_dataset (params w) (centroids w) in
  emit (EvPrint (PrintAuroc auroc)) ;;;
  writer_add_scalar "OoD/val_accuracy" accuracy ;;;
  writer_add_scalar "OoD/roc_auc_classification" auroc.

Definition log_results (cfg : Config) (val_dataset : loc)
    (evaluator : Engine) (val_loader : DataLoader) : M unit :=
  let* metrics_ := gets (λ w, metrics (trainer_state w)) in
  let* loss := dict_get metrics_ "loss" in
  let* bce := dict_get metrics_ "bce" in
  let* GP := dict_get metrics_ "gradient_penalty" in
  let* e := trainer_state_epoch in
  emit (EvPrint (PrintTrain e loss bce GP)) ;;;
  writer_add_scalar "Loss/train" loss ;;;
  let* e := trainer_state_epoch in
  (if 195 <? e then ood_branch val_dataset e else ret ()) ;;;
  engine_run evaluator val_loader 1 ;;;
  let* metrics_ := gets (λ w, metrics (evaluator_state w)) in
  let* acc := dict_get metrics_ "accuracy" in
  let* bce := dict_get metrics_ "bce" in
  let* GP := dict_get metrics_ "gradient_penalty" in
  let loss := s_add bce (s_mul (l_gradient_penalty cfg) GP) in
  let* e := trainer_state_epoch in
  emit (EvPrint (PrintValid e acc loss bce GP)) ;;;
  writer_add_scalar "Loss/valid" loss ;;;
  writer_add_scalar "BCE/valid" bce ;;;
  writer_add_scalar "GP/valid" GP ;;;
  writer_add_scalar "Accuracy/valid" acc ;;;
  scheduler_step.

(** *** main (lines 23-242) *)

(** Lines 43-56: the split.  [idx[:val_size]] and [idx[val_size:]]. *)
Definition split_datasets (cfg : Config) (dataset test_dataset : loc) : M (loc * loc) :=
  let* n := len dataset in
  let* idx := shuffle (seq 0 n) in
  if final_model cfg then
    ret (dataset, test_dataset)
  else
    let val_size := val_size n in
    let* train_dataset := Subset_new dataset (take val_size idx) in
    let* val_dataset := Subset_new dataset (drop val_size idx) in
    let* t := getattr test_dataset "transform" in
    setattr val_dataset "transform" t ;;;
    ret (train_dataset, val_dataset).

(** Lines 58-61: neither branch binds [model_class] for another name. *)
Definition select_model_class (architecture : string) : option ModelClass :=
  if String.eqb architecture "WRN" then Some WideResNet
  else if String.eqb architecture "ResNet18" then Some resnet18
  else None.

(** Lines 63-74: the model, on the GPU, its optimiser and scheduler. *)
Definition ResNet_DUQ (cfg : Config) (model_class : option ModelClass) : M unit :=
  match model_class with
  | None => raise (UnboundLocalError "model_class")
  | Some c =>
      emit (EvResNetDUQ c) ;;;
      modify (set_schedule (learning_rate cfg) 0)
  end.

Definition trainer_metrics : list (string * nat) :=
  [("loss", 0); ("bce", 1); ("gradient_penalty", 2)].

Definition evaluator_metrics : list (string * nat) :=
  [("accuracy", 0); ("bce", 1); ("gradient_penalty", 2)].

Definition test_batch_size : nat := 200.

Definition make_evaluator (cfg : Config) (num_classes : nat) : Engine :=
  {| eid := Evaluator; process_function := eval_step cfg num_classes;
     attached := evaluator_metrics; on_epoch_completed := ret () |}.

Definition make_trainer (cfg : Config) (num_classes : nat)
    (val_dataset : loc) (val_loader : DataLoader) : Engine :=
  {| eid := Trainer; process_function := step cfg num_classes;
     attached := trainer_metrics;
     on_epoch_completed :=
       log_results cfg val_dataset (make_evaluator cfg num_classes) val_loader |}.

(** Lines 39-56: the datasets and their split. *)
Definition prepare_data (cfg : Config) (ds : Provider)
  : M (nat * loc * loc * loc * loc) :=
  let* (input_size, num_classes, dataset, test_dataset) := all_datasets_CIFAR10 ds in
  let* (train_dataset, val_dataset) := split_datasets cfg dataset test_dataset in
  ret (num_classes, dataset, test_dataset, train_dataset, val_dataset).

(** Lines 37-184: everything before the first epoch. *)
Definition setup (cfg : Config) (ds : Provider)
  : M (nat * loc * loc * loc * DataLoader * DataLoader * DataLoader) :=
  emit (EvSummaryWriter (output_dir cfg)) ;;;
  let* (num_classes, dataset, test_dataset, train_dataset, val_dataset) :=
    prepare_data cfg ds in
  let model_class := select_model_class (architecture cfg) in
  ResNet_DUQ cfg model_class ;;;
  average_reset "loss" ;;;
  average_reset "accuracy" ;;;
  average_reset "bce" ;;;
  average_reset "gradient_penalty" ;;;
  let* train_loader := DataLoader_new train_dataset (batch_size cfg) true true in
  let* len_val := len val_dataset in
  py_assert (len_val mod test_batch_size =? 0) "incorrect result averaging" ;;;
  let* len_test := len test_dataset in
  py_assert (len_test mod test_batch_size =? 0) "incorrect result averaging" ;;;
  let* val_loader := DataLoader_new val_dataset (Z.of_nat test_batch_size) false false in
  let* test_loader := DataLoader_new test_dataset (Z.of_nat test_batch_size) false false in
  ret (num_classes, train_dataset, val_dataset, test_dataset,
       train_loader, val_loader, test_loader).

Definition main (cfg : Config) (ds : Provider) : M unit :=
  let* (num_classes, train_dataset, val_dataset, test_dataset,
         train_loader, val_loader, test_loader) := setup cfg ds in
  let evaluator := make_evaluator cfg num_classes in
  let trainer := make_trainer cfg num_classes val_dataset val_loader in
  engine_run trainer train_loader (Z.to_nat (epochs cfg)) ;;;
  engine_run evaluator test_loader 1 ;;;
  let* st := gets evaluator_state in
  let* acc := dict_get (metrics st) "accuracy" in
  emit (EvPrint (PrintTest acc)) ;;;
  emit (EvSave ("runs/" +:+ output_dir cfg +:+ "/model.pt")) ;;;
  emit EvWriterClose.

(** *** The command line (lines 245-334) *)

(** The options as given on the command line, converted to their
    types; an option left out is [None]. *)
Record Argv := {
  arg_architecture : option string;
  arg_epochs : option Z;
  arg_batch_size : option Z;
  arg_centroid_size : option Z;
  arg_model_output_size : option Z;
  arg_learning_rate : option scalar;
  arg_l_gradient_penalty : option scalar;
  arg_gamma : option scalar;
  arg_length_scale : option scalar;
  arg_weight_decay : option scalar;
  arg_output_dir : option string;
  arg_final_model : bool;
}.

Definition architecture_choices : list string := ["ResNet18"; "WRN"].

(** [parser.parse_args()]: a value outside [choices] prints the usage
    error and exits with status 2. *)
Definition parse_args (argv : Argv) : M Config :=
  let* arch :=
    match arg_architecture argv with
    | None => ret "ResNet18"
    | Some a =>
        if bool_decide (a ∈ architecture_choices) then ret a
        else emit (EvUsageError "--architecture") ;;; raise (SystemExit 2)
    end in
  ret {| architecture := arch;
         batch_size := default 128%Z (arg_batch_size argv);
         epochs := default 200%Z (arg_epochs argv);
         length_scale := default (s_lit 1 10) (arg_length_scale argv);
         centroid_size := default 512%Z (arg_centroid_size argv);
         model_output_size := default 512%Z (arg_model_output_size argv);
         learning_rate := default (s_lit 5 100) (arg_learning_rate argv);
         l_gradient_penalty := default (s_lit 5 10) (arg_l_gradient_penalty argv);
         gamma := default (s_lit 999 1000) (arg_gamma argv);
         weight_decay := default (s_lit 5 10000) (arg_weight_decay argv);
         final_model := arg_final_model argv;
         output_dir := default "results" (arg_output_dir argv) |}.

Definition program (argv : Argv) (ds : Provider) : M unit :=
  let* kwargs := parse_args argv in
  emit (EvPrint (PrintArgs kwargs)) ;;;
  emit (EvMkdir ("runs/" +:+ output_dir kwargs)) ;;;
  main kwargs ds.

(** The process at start-up: nothing allocated, nothing logged; the
    random draws and the initial weights are inputs. *)
Definition initial_world (draws : list nat) (p : Params) (m : Momentum) (c : Centroids)
  : World :=
  {| heap := ∅; next_loc := 0; rng := draws; params := p; momentum := m;
     centroids := c; grads := None; training := true; grad_enabled := true;
     lr := s_of_Z 0; last_epoch := 0; averages := ∅;
     trainer_state := {| epoch := 0; iteration := 0; metrics := ∅ |};
     evaluator_state := {| epoch := 0; iteration := 0; metrics := ∅ |};
     log := [] |}.

End Train.

(** ** Vocabulary of the statements *)

Section Vocabulary.
Context `{Sc : Scalar} `{Su : !Substrate}.

(** Which state components a trace mutates, in order. *)
Definition mutations (l : list event) : list component :=
  omap (λ e, match e with EvMutated c => Some c | _ => None end) l.

(** The trainer epochs at which the OOD evaluation ran. *)
Definition ood_epochs (l : list event) : list nat :=
  omap (λ e, match e with EvOodEval n => Some n | _ => None end) l.

(** The training epochs that were started. *)
Definition training_epochs (l : list event) : list nat :=
  omap (λ e, match e with EvEpochStarted Trainer n => Some n | _ => None end) l.

(** The training resources a trace allocates: writer, datasets, model. *)
Definition allocates (e : event) : bool :=
  match e with
  | EvSummaryWriter _ | EvAllDatasets _ | EvResNetDUQ _ => true
  | _ => false
  end.

Definition is_inr {A B} (r : A + B) : bool :=
  match r with inr _ => true | inl _ => false end.

(** Every index below [len(dataset)] can be fetched. *)
Definition fetchable (h : gmap loc pyobj) (dataset : loc) : bool :=
  match py_len h dataset with
  | inr n => forallb (λ i, is_inr (getitem h dataset i)) (seq 0 n)
  | inl _ => false
  end.

(** The underlying dataset and the indices of a [Subset] object. *)
Definition subset_view (h : gmap loc pyobj) (l : loc) : option (loc * list nat) :=
  match h !! l with
  | Some (PyObj Subset a) =>
      match a !! "dataset", a !! "indices" with
      | Some (PRef d), Some (PInts indices) => Some (d, indices)
      | _, _ => None
      end
  | _ => None
  end.

(** What the OOD branch logs at epoch [e], from world [w]. *)
Definition ood_branch_events (val_dataset : loc) (e : nat) (w : World) : list event :=
  let test := get_cifar_svhn_ood (params w) (centroids w) in
  let val := get_auroc_classification (heap w) val_dataset (params w) (centroids w) in
  [EvOodEval e; EvPrint (PrintOod test.1 test.2);
   EvAddScalar "OoD/test_accuracy" test.1 e; EvAddScalar "OoD/roc_auc" test.2 e;
   EvAurocClassification val_dataset; EvPrint (PrintAuroc val.2);
   EvAddScalar "OoD/val_accuracy" val.1 e;
   EvAddScalar "OoD/roc_auc_classification" val.2 e].

(** The length of the validation set as [main] builds it. *)
Definition len_val_dataset (cfg : Config) (ds : Provider) : nat :=
  if final_model cfg then length (test_targets ds)
  else length (train_targets ds) - val_size (length (train_targets ds)).

(** The length of the training set as [main] builds it. *)
Definition len_train_dataset (cfg : Config) (ds : Provider) : nat :=
  if final_model cfg then length (train_targets ds)
  else val_size (length (train_targets ds)) `min` length (train_targets ds).

(** Where [main], started from [w], allocates its training and
    validation sets: the provider's two datasets come first, the two
    subsets of a non-final run after them. *)
Definition train_dataset_of (cfg : Config) (w : World) : loc :=
  if final_model cfg then next_loc w else S (S (next_loc w)).

Definition val_dataset_of (cfg : Config) (w : World) : loc :=
  if final_model cfg then S (next_loc w) else S (S (S (next_loc w))).

(** The shuffled index list of a run, and the two slices of it. *)
Definition idx_of (ds : Provider) (w : World) : list nat :=
  (random_shuffle (rng w) (seq 0 (length (train_targets ds)))).1.

(** The heap once the datasets are loaded and, in non-final mode, split. *)
Definition loaded_heap (ds : Provider) (w : World) : gmap loc pyobj :=
  <[S (next_loc w) := vision_object (test_targets ds) TestPreprocessing]>
    (<[next_loc w := vision_object (train_targets ds) TrainAugmentation]> (heap w)).

Definition split_heap (ds : Provider) (w : World) : gmap loc pyobj :=
  let d := next_loc w in
  let k := val_size (length (train_targets ds)) in
  let val := subset_object d (drop k (idx_of ds w)) in
  <[S (S (S d)) := PyObj Subset
       (<["transform" := PTransform TestPreprocessing]> (attrs val))]>
    (<[S (S (S d)) := val]>
       (<[S (S d) := subset_object d (take k (idx_of ds w))]> (loaded_heap ds w))).

Definition data_world (cfg : Config) (ds : Provider) (w : World) : World :=
  set_heap (λ _, if final_model cfg then loaded_heap ds w else split_heap ds w)
           (if final_model cfg then S (S (next_loc w)) else S (S (S (S (next_loc w)))))
    (set_rng (random_shuffle (rng w) (seq 0 (length (train_targets ds)))).2
       (set_log (log w ++ [EvAllDatasets "CIFAR10"]) w)).

(** The world once the writer is open and the data prepared. *)
Definition prepared_world (cfg : Config) (ds : Provider) (w : World) : World :=
  data_world cfg ds (set_log (log w ++ [EvSummaryWriter (output_dir cfg)]) w).

(** The world once the model, its optimiser and the metrics exist. *)
Definition model_world (cfg : Config) (ds : Provider) (c : ModelClass) (w : World) : World :=
  let w1 := prepared_world cfg ds w in
  set_averages
    (<["gradient_penalty" := (s_of_Z 0, 0)]>
       (<["bce" := (s_of_Z 0, 0)]>
          (<["accuracy" := (s_of_Z 0, 0)]>
             (<["loss" := (s_of_Z 0, 0)]> (averages w)))))
    (set_schedule (learning_rate cfg) 0 (set_log (log w1 ++ [EvResNetDUQ c]) w1)).

(** [m] returns from [w], with a value and a world that satisfy [Q]. *)
Definition runs {A} (m : M A) (w : World) (Q : A → World → Prop) : Prop :=
  ∃ a w', m w = (w', inr a) ∧ Q a w'.

(** What the steps and the evaluation passes leave alone. *)
Record keeps (w w' : World) : Prop := Keeps {
  keeps_heap : heap w' = heap w;
  keeps_grad_enabled : grad_enabled w' = grad_enabled w;
  keeps_ood : ood_epochs (log w') = ood_epochs (log w);
  keeps_epoch : epoch (trainer_state w') = epoch (trainer_state w);
  keeps_last_epoch : last_epoch w' = last_epoch w;
  keeps_lr : lr w' = lr w;
}.

(** What a well-behaved process function does. *)
Definition process_keeps (eng : Engine) : Prop :=
  ∀ batch w, grad_enabled w = true →
    runs (process_function eng batch) w (λ _ w',
      keeps w w' ∧ trainer_state w' = trainer_state w
      ∧ evaluator_state w' = evaluator_state w).

(** What an iteration leaves alone besides [keeps]: the state of the
    other engine, and the epoch and metrics of its own. *)
Definition keeps_states (e : engine_id) (w w' : World) : Prop :=
  keeps w w'
  ∧ epoch (engine_state e w') = epoch (engine_state e w)
  ∧ metrics (engine_state e w') = metrics (engine_state e w)
  ∧ match e with
    | Trainer => evaluator_state w' = evaluator_state w
    | Evaluator => trainer_state w' = trainer_state w
    end.

End Vocabulary.

(** The penalty as the specification words it, over the reals. *)

Definition l2_norm (v : list R) : R :=
  sqrt (fold_right Rplus 0%R ((λ a, a * a)%R <$> v)).

Definition mean (xs : list R) : R :=
  (fold_right Rplus 0%R xs / INR (length xs))%R.

Definition mean_squared_deviation_from_1 (norms : list R) : R :=
  mean ((λ n, (n - 1) * (n - 1))%R <$> norms).

(** ** Two small substrates, on which the definitions are run *)

Definition float_lit : Z → Z → @scalar float_scalar := @s_lit float_scalar.

Definition real_num : Z → @scalar real_scalar := @s_of_Z real_scalar.

Definition float_substrate : @Substrate float_scalar :=
  {| Params := nat; Momentum := nat; Centroids := nat; Grads := nat;
     g_add := Nat.add;
     g_scale := λ _ g, g;
     net_forward := λ _ _ _ xs, (λ _, [float_lit 1 2; float_lit 1 4]) <$> xs;
     net_input_grad := λ _ _ _ xs, (λ _, [[[float_lit 1 1; float_lit 0 1]]]) <$> xs;
     binary_cross_entropy := λ _ _, float_lit 3 4;
     bce_backward := λ _ _ _ _, 1;
     penalty_backward := λ _ _ _, 2;
     sgd_step := λ _ _ _ p m g, (p + g, S m);
     update_embeddings := λ _ _ c _ _, S c;
     argmax_accuracy := λ _ _, float_lit 1 2;
     get_cifar_svhn_ood := λ _ _, (float_lit 1 2, float_lit 1 2);
     get_auroc_classification := λ _ _ _ _, (float_lit 1 4, float_lit 1 4) |}.

Definition real_substrate : @Substrate real_scalar :=
  {| Params := nat; Momentum := nat; Centroids := nat; Grads := nat;
     g_add := Nat.add;
     g_scale := λ _ g, g;
     net_forward := λ _ _ _ xs, (λ _, [real_num 1; real_num 0]) <$> xs;
     net_input_grad := λ _ _ _ xs, (λ _, [[[real_num 1; real_num 0]]]) <$> xs;
     binary_cross_entropy := λ _ _, real_num 0;
     bce_backward := λ _ _ _ _, 1;
     penalty_backward := λ _ _ _, 2;
     sgd_step := λ _ _ _ p m g, (p + g, S m);
     update_embeddings := λ _ _ c _ _, S c;
     argmax_accuracy := λ _ _, real_num 1;
     get_cifar_svhn_ood := λ _ _, (real_num 1, real_num 1);
     get_auroc_classification := λ _ _ _ _, (real_num 1, real_num 1) |}.

Definition example_config `{Scalar} (final : bool) : Config := {|
  architecture := "ResNet18"; batch_size := 128; epochs := 200;
  length_scale := s_lit 1 10; centroid_size := 512; model_output_size := 512;
  learning_rate := s_lit 5 100; l_gradient_penalty := s_lit 5 10;
  gamma := s_lit 999 1000; weight_decay := s_lit 5 10000;
  final_model := final; output_dir := "results" |}.

(** A provider in the proportions of CIFAR10, scaled down by fifty. *)
Definition example_provider : Provider := {|
  input_size := 32; num_classes := 10;
  train_targets := (λ i, i mod 10) <$> seq 0 1000;
  test_targets := (λ i, i mod 10) <$> seq 0 200 |}.

Definition example_sample (t : Transform) : Sample :=
  {| source := 0; preprocessing := t |}.

Definition example_tensor (tracked : bool) : Tensor :=
  {| data := [example_sample TrainAugmentation]; requires_grad := tracked |}.

(** Ten training images and two hundred test images. *)
Definition small_provider : Provider := {|
  input_size := 32; num_classes := 10;
  train_targets := [3; 1; 4; 1; 5; 9; 2; 6; 5; 3];
  test_targets := (λ i, i mod 10) <$> seq 0 200 |}.

Definition small_config (final : bool) : @Config float_scalar := {|
  architecture := "WRN"; batch_size := 4; epochs := 200;
  length_scale := float_lit 1 10; centroid_size := 512;
  model_output_size := 512;
  learning_rate := float_lit 5 100;
  l_gradient_penalty := float_lit 5 10;
  gamma := float_lit 999 1000;
  weight_decay := float_lit 5 10000;
  final_model := final; output_dir := "results" |}.

Definition example_world : @World float_scalar float_substrate :=
  @initial_world float_scalar float_substrate [3; 1; 4; 1; 5; 9; 2; 6] 0 0 0.

(** The world of a final-model run at the end of training epoch 196,
    and its validation loader. *)
Definition example_epoch_world : @World float_scalar float_substrate :=
  @set_engine float_scalar float_substrate Trainer
    {| epoch := 196; iteration := 392;
       metrics := <["gradient_penalty" := float_lit 0 1]>
                    (<["bce" := float_lit 3 4]>
                       (<["loss" := float_lit 3 4]> ∅)) |}
    (@model_world float_scalar float_substrate (small_config true) small_provider
       WideResNet example_world).

Definition example_val_loader : DataLoader :=
  {| dl_dataset := 1; dl_batch_size := 200; dl_shuffle := false; dl_drop_last := false |}.

(** An output of the model whose input gradient is one unit vector. *)
Definition example_output : @Output real_scalar real_substrate :=
  @Build_Output real_scalar real_substrate
    [[real_num 1; real_num 0]]
    (Some [[[[real_num 1; real_num 0]]]])
    (0, 0, [example_sample TrainAugmentation]).

Definition example_argv : @Argv float_scalar := {|
  arg_architecture := Some "VGG"; arg_epochs := None; arg_batch_size := None;
  arg_centroid_size := None; arg_model_output_size := None;
  arg_learning_rate := None; arg_l_gradient_penalty := None; arg_gamma := None;
  arg_length_scale := None; arg_weight_decay := None; arg_output_dir := None;
  arg_final_model := false |}.

(** ** Vocabulary of the evaluation pass, the schedule and whole runs *)

Section MoreVocabulary.
Context `{Sc : Scalar} `{Su : !Substrate}.

(** Everything outside the engines, the metrics, the mode flag and the
    log: what an evaluation pass has no business with. *)
Record untouched (w w' : World) : Prop := Untouched {
  untouched_heap : heap w' = heap w;
  untouched_next_loc : next_loc w' = next_loc w;
  untouched_rng : rng w' = rng w;
  untouched_params : params w' = params w;
  untouched_momentum : momentum w' = momentum w;
  untouched_centroids : centroids w' = centroids w;
  untouched_grads : grads w' = grads w;
  untouched_grad_enabled : grad_enabled w' = grad_enabled w;
  untouched_lr : lr w' = lr w;
  untouched_last_epoch : last_epoch w' = last_epoch w;
  untouched_trainer : trainer_state w' = trainer_state w;
}.

(** The accumulator and the count of the [Average] object [name]. *)
Definition average_of (w : World) (name : string) : scalar * nat :=
  default (s_of_Z 0, 0) (averages w !! name).

(** The items of a batch, as fetched. *)
Definition fetched (h : gmap loc pyobj) (dataset : loc) (batch : list nat)
  : list (Sample * nat) :=
  match fetch h dataset batch with
  | inr items => items
  | inl _ => []
  end.

(** What the eval step computes on a batch, for a model in eval mode. *)
Definition eval_output (nc : nat) (p : Params) (c : Centroids)
    (items : list (Sample * nat)) : scalar * scalar * scalar :=
  let scores := net_forward false p c items.*1 in
  (argmax_accuracy scores items.*2,
   binary_cross_entropy scores (one_hot items.*2 nc),
   s_mean (two_sided (norm_2 <$> flatten_start_dim_1
                        (net_input_grad false p c items.*1)))).

(** The per-batch outputs of a pass in dataset order over [n] examples. *)
Definition eval_outputs (nc : nat) (h : gmap loc pyobj) (p : Params) (c : Centroids)
    (dl : DataLoader) (n : nat) : list (scalar * scalar * scalar) :=
  (λ batch, eval_output nc p c (fetched h (dl_dataset dl) batch))
    <$> batch_sampler (dl_batch_size dl) (dl_drop_last dl) [] (seq 0 n).

(** What one evaluator iteration logs. *)
Definition eval_iteration_events : list event :=
  [EvIteration Evaluator; EvModelEval; EvRequiresGrad true; EvForward].

End MoreVocabulary.

Section ScheduleVocabulary.
Context `{Sc : Scalar}.

(** [MultiStepLR(milestones=[60, 120, 160], gamma=0.2)]: the rate after
    the scheduler's step into epoch [e]. *)
Definition decay_at (e : nat) (rate : scalar) : scalar :=
  if bool_decide (e ∈ [60; 120; 160]) then s_mul rate (s_lit 2 10) else rate.

(** The milestones reached after [n] steps of the scheduler. *)
Definition milestones_reached (n : nat) : nat :=
  length (filter (λ m, m ≤ n) [60; 120; 160]).

(** The rate multiplied [k] times by the factor 0.2. *)
Definition decayed (k : nat) (rate : scalar) : scalar :=
  Nat.iter k (λ r, s_mul r (s_lit 2 10)) rate.

End ScheduleVocabulary.

Section LoaderVocabulary.
Context `{Sc : Scalar} `{Su : !Substrate}.

(** The loader of the test set, as [main] builds it (lines 182-184);
    the test set is the second object [all_datasets] allocates. *)
Definition test_loader_of (w : World) : DataLoader :=
  {| dl_dataset := S (next_loc w); dl_batch_size := test_batch_size;
     dl_shuffle := false; dl_drop_last := false |}.

End LoaderVocabulary.

(** ** Proof automation *)

(** Evaluate the straight-line part of a computation. *)
Ltac run_unfold :=
  unfold model_train, model_eval, optimizer_zero_grad, requires_grad_,
    model_call, backward, optimizer_step, no_grad, model_update_embeddings,
    writer_add_scalar, trainer_state_epoch, scheduler_step,
    average_reset, average_update, average_compute, update_state,
    emit, modify, gets, lift, raise, bind, ret.

(** ** The split (lines 39-56) *)

Tactic Notation "world_simpl" :=
  cbn [heap next_loc rng params momentum centroids grads training grad_enabled
       lr last_epoch averages trainer_state evaluator_state log
       set_heap set_rng set_optimized set_centroids set_grads set_training
       set_grad_enabled set_schedule set_averages set_engine set_log
       engine_state epoch iteration metrics fst snd].

Tactic Notation "world_simpl" "in" "*" :=
  cbn [heap next_loc rng params momentum centroids grads training grad_enabled
       lr last_epoch averages trainer_state evaluator_state log
       set_heap set_rng set_optimized set_centroids set_grads set_training
       set_grad_enabled set_schedule set_averages set_engine set_log
       engine_state epoch iteration metrics fst snd] in *.

(** * Properties *)

(** ** The split: shuffling permutes *)

Lemma val_size_10 : val_size 10 = 8.
Proof. vm_compute. reflexivity. Qed.

Lemma val_size_1000 : val_size 1000 = 800.
Proof. vm_compute. reflexivity. Qed.

Lemma swap_length x i j : length (swap x i j) = length x.
Proof.
  unfold swap. destruct (x !! i), (x !! j); try done.
  by rewrite !length_insert.
Qed.

Lemma swap_Permutation x i j : swap x i j ≡ₚ x.
Proof.
  unfold swap. destruct (x !! i) as [a|] eqn:Hi, (x !! j) as [b|] eqn:Hj; try done.
  by apply Permutation_insert_swap.
Qed.

Lemma shuffle_from_Permutation i draws x : (shuffle_from i draws x).1 ≡ₚ x.
Proof.
  revert draws x. induction i as [|i IH]; intros draws x; simpl; [done|].
  rewrite IH. apply swap_Permutation.
Qed.

Lemma random_shuffle_Permutation draws x : (random_shuffle draws x).1 ≡ₚ x.
Proof. apply shuffle_from_Permutation. Qed.

Lemma random_shuffle_example :
  (random_shuffle [2; 0; 1; 5] [0; 1; 2; 3]).1 = [3; 1; 0; 2].
Proof. reflexivity. Qed.

(** ** The gradient penalty *)

Section Penalty.
Context `{Sc : Scalar} `{Su : !Substrate}.

Lemma calc_gradients_input_untracked (x : Tensor) (y_pred : Output) :
  requires_grad x = false →
  calc_gradients_input x y_pred
  = inl (RuntimeError "One of the differentiated Tensors does not require grad").
Proof.
  intros Hx. unfold calc_gradients_input, autograd_grad. by rewrite Hx.
Qed.

Lemma calc_gradients_input_tracked (x : Tensor) (y_pred : Output) g :
  requires_grad x = true → input_graph y_pred = Some g →
  calc_gradients_input x y_pred = inr (flatten_start_dim_1 g).
Proof.
  intros Hx Hg. unfold calc_gradients_input, autograd_grad. by rewrite Hx, Hg.
Qed.

Lemma calc_gradient_penalty_tracked (x : Tensor) (y_pred : Output) g :
  requires_grad x = true → input_graph y_pred = Some g →
  calc_gradient_penalty x y_pred
  = inr {| item := s_mean (two_sided (norm_2 <$> flatten_start_dim_1 g));
           param_grad := penalty_backward (origin y_pred).1.1 (origin y_pred).1.2
                                          (origin y_pred).2 |}.
Proof.
  intros Hx Hg. unfold calc_gradient_penalty.
  rewrite (calc_gradients_input_tracked x y_pred g Hx Hg).
  by destruct (origin y_pred) as [[p c] d].
Qed.

(** C8: when the input does not carry gradient tracking, the
    gradient-penalty computation fails at once with torch's RuntimeError,
    leaves the world as it was, and returns no value, zero or other. *)
Theorem gradient_penalty_untracked_input_fails (x : Tensor) (y_pred : Output) :
  requires_grad x = false →
  calc_gradient_penalty x y_pred
  = inl (RuntimeError "One of the differentiated Tensors does not require grad")
  ∧ (∀ gp, calc_gradient_penalty x y_pred ≠ inr gp)
  ∧ (∀ w, lift (calc_gradient_penalty x y_pred) w
          = (w, inl (RuntimeError "One of the differentiated Tensors does not require grad"))).
Proof.
  intros Hx.
  assert (calc_gradient_penalty x y_pred
          = inl (RuntimeError "One of the differentiated Tensors does not require grad")) as E.
  { unfold calc_gradient_penalty. by rewrite calc_gradients_input_untracked. }
  split; [exact E|]. split.
  - intros gp. by rewrite E.
  - intros w. unfold lift. by rewrite E.
Qed.

End Penalty.

Section PenaltyOverTheReals.
#[local] Existing Instance real_scalar.
Context (Su : @Substrate real_scalar).
#[local] Open Scope R_scope.

Lemma foldl_Rplus (a : R) (xs : list R) :
  foldl Rplus a xs = a + fold_right Rplus 0 xs.
Proof.
  revert a. induction xs as [|x xs IH]; intros a; simpl; [lra|].
  rewrite IH. lra.
Qed.

Lemma s_sum_real (xs : list R) : s_sum xs = fold_right Rplus 0 xs.
Proof. unfold s_sum. simpl. rewrite foldl_Rplus. apply Rplus_0_l. Qed.

Lemma norm_2_real (row : list R) : norm_2 row = l2_norm row.
Proof. unfold norm_2, l2_norm. simpl. by rewrite s_sum_real. Qed.

Lemma s_mean_real (xs : list R) : s_mean xs = mean xs.
Proof.
  unfold s_mean, mean. simpl. rewrite s_sum_real. by rewrite <- INR_IZR_INZ.
Qed.

Lemma two_sided_real (norms : list R) :
  s_mean (two_sided norms) = mean_squared_deviation_from_1 norms.
Proof. unfold mean_squared_deviation_from_1. by rewrite s_mean_real. Qed.

Lemma sum_nonneg (xs : list R) :
  Forall (λ v, 0 <= v) xs → 0 <= fold_right Rplus 0 xs.
Proof. induction 1; simpl; lra. Qed.

Lemma sum_nonneg_zero (xs : list R) :
  Forall (λ v, 0 <= v) xs →
  fold_right Rplus 0 xs = 0 ↔ Forall (λ v, v = 0) xs.
Proof.
  induction 1 as [|v xs Hv Hxs IH]; simpl.
  - split; [constructor | done].
  - pose proof (sum_nonneg xs Hxs). split.
    + intros Hs. constructor; [lra|]. apply IH. lra.
    + intros Hall. inversion Hall as [|? ? Hv0 Hrest]; subst.
      apply IH in Hrest. lra.
Qed.

Lemma squared_deviations_nonneg (norms : list R) :
  Forall (λ v, 0 <= v) ((λ n, (n - 1) * (n - 1)) <$> norms).
Proof.
  apply Forall_fmap, Forall_forall. intros n _. simpl.
  apply (Rle_0_sqr (n - 1)).
Qed.

Lemma mean_squared_deviation_nonneg (norms : list R) :
  0 <= mean_squared_deviation_from_1 norms.
Proof.
  unfold mean_squared_deviation_from_1, mean.
  pose proof (sum_nonneg _ (squared_deviations_nonneg norms)) as Hs.
  destruct norms as [|n norms].
  - simpl. lra.
  - apply Rmult_le_pos; [exact Hs|].
    apply Rlt_le, Rinv_0_lt_compat, lt_0_INR. simpl. lia.
Qed.

Lemma mean_squared_deviation_zero (norms : list R) :
  norms ≠ [] →
  mean_squared_deviation_from_1 norms = 0 ↔ ∀ n, n ∈ norms → n = 1.
Proof.
  intros Hne. unfold mean_squared_deviation_from_1, mean.
  set (sq := (λ n, (n - 1) * (n - 1)) <$> norms).
  assert (0 < INR (length sq)) as Hlen.
  { apply lt_0_INR. unfold sq. rewrite length_fmap.
    destruct norms; [done | simpl; lia]. }
  assert (fold_right Rplus 0 sq / INR (length sq) = 0 ↔ fold_right Rplus 0 sq = 0) as ->.
  { split; intros Hz.
    - apply (Rmult_eq_compat_r (INR (length sq))) in Hz.
      unfold Rdiv in Hz. rewrite Rmult_assoc, Rinv_l, Rmult_1_r, Rmult_0_l in Hz; lra.
    - rewrite Hz. unfold Rdiv. lra. }
  rewrite (sum_nonneg_zero sq (squared_deviations_nonneg norms)).
  unfold sq. rewrite Forall_fmap, Forall_forall. simpl.
  split; intros Hall n Hn; specialize (Hall n Hn).
  - apply Rmult_integral in Hall. lra.
  - rewrite Hall. lra.
Qed.


End PenaltyOverTheReals.

(** ** Running a computation: total correctness *)

Section Runs.
Context `{Sc : Scalar} `{Su : !Substrate}.

Lemma runs_ret {A} (a : A) w (Q : A → World → Prop) : Q a w → runs (ret a) w Q.
Proof. intros HQ. by exists a, w. Qed.

Lemma runs_bind {A B} (m : M A) (k : A → M B) w
    (Q : A → World → Prop) (Q' : B → World → Prop) :
  runs m w Q → (∀ a w', Q a w' → runs (k a) w' Q') → runs (bind m k) w Q'.
Proof.
  intros (a & w' & Hm & HQ) Hk.
  destruct (Hk a w' HQ) as (b & w'' & Hkb & HQ').
  exists b, w''. split; [|done]. unfold bind. by rewrite Hm.
Qed.

Lemma runs_weaken {A} (m : M A) w (Q Q' : A → World → Prop) :
  runs m w Q → (∀ a w', Q a w' → Q' a w') → runs m w Q'.
Proof. intros (a & w' & Hm & HQ) H. exists a, w'. auto. Qed.

Lemma runs_eq {A} (m : M A) w w' a (Q : A → World → Prop) :
  m w = (w', inr a) → Q a w' → runs m w Q.
Proof. intros Hm HQ. by exists a, w'. Qed.

Lemma runs_step {A B} (m : M A) (k : A → M B) w w' a (Q : B → World → Prop) :
  m w = (w', inr a) → runs (k a) w' Q → runs (bind m k) w Q.
Proof.
  intros Hm (b & w'' & Hk & HQ). exists b, w''. split; [|done].
  unfold bind. by rewrite Hm.
Qed.

Lemma keeps_refl w : keeps w w.
Proof. by constructor. Qed.

Lemma keeps_trans w1 w2 w3 : keeps w1 w2 → keeps w2 w3 → keeps w1 w3.
Proof.
  intros [] []. constructor; congruence.
Qed.

Lemma ood_epochs_app (l1 l2 : list event) :
  ood_epochs (l1 ++ l2) = ood_epochs l1 ++ ood_epochs l2.
Proof. apply omap_app. Qed.

Lemma training_epochs_app (l1 l2 : list event) :
  training_epochs (l1 ++ l2) = training_epochs l1 ++ training_epochs l2.
Proof. apply omap_app. Qed.

(** A loop whose body keeps what [keeps] names keeps it too. *)
Lemma mfor_keeps {A} (P : A → Prop) (I : World → Prop) (body : A → M unit) :
  (∀ w w', I w → keeps w w' → I w') →
  (∀ x w, P x → I w → runs (body x) w (λ _ w', keeps w w')) →
  ∀ xs w, Forall P xs → I w → runs (mfor xs body) w (λ _ w', keeps w w').
Proof.
  intros HI Hbody xs. induction xs as [|x xs IH]; intros w HP Hw; simpl.
  - apply runs_ret, keeps_refl.
  - inversion HP as [|? ? Hx Hxs]; subst.
    eapply runs_bind; [by apply Hbody|].
    intros [] w1 Hk1. cbv beta in *.
    eapply runs_weaken; [apply IH; eauto|].
    intros [] w2 Hk2. cbv beta in *. by eapply keeps_trans.
Qed.

End Runs.

(** ** The train step *)

Section Step.
Context `{Sc : Scalar} `{Su : !Substrate}.


Lemma step_keeps (cfg : Config) (nc : nat) (batch : Tensor * list nat) (w : World) :
  grad_enabled w = true →
  runs (step cfg nc batch) w (λ _ w', keeps w w').
Proof.
  intros Hg. destruct batch as [x y].
  unfold runs, step. run_unfold. cbn -[s_lit]. rewrite Hg. cbn -[s_lit].
  destruct (sgd_step _ _ _ _ _ _) as [p m] eqn:Hsgd.
  eexists _, _. split; [reflexivity|].
  constructor; cbn -[s_lit ood_epochs]; try done.
  rewrite !ood_epochs_app. cbn. by rewrite !app_nil_r.
Qed.

Lemma eval_step_keeps (cfg : Config) (nc : nat) (batch : Tensor * list nat) (w : World) :
  grad_enabled w = true →
  runs (eval_step cfg nc batch) w (λ _ w', keeps w w' ∧ trainer_state w' = trainer_state w).
Proof.
  intros Hg. destruct batch as [x y].
  unfold runs, eval_step. run_unfold. cbn -[s_lit]. rewrite Hg. cbn -[s_lit].
  eexists _, _. split; [reflexivity|].
  split; [|done]. constructor; cbn -[s_lit ood_epochs]; try done.
  rewrite !ood_epochs_app. cbn. by rewrite !app_nil_r.
Qed.

End Step.

(** ** Datasets: objects, lengths, items *)

Section Data.
Context `{Sc : Scalar} `{Su : !Substrate}.

Lemma vision_object_targets targets t :
  attrs (vision_object targets t) !! "targets" = Some (PInts targets).
Proof. unfold vision_object. cbn [attrs]. by simplify_map_eq. Qed.

Lemma vision_object_transform targets t :
  attrs (vision_object targets t) !! "transform" = Some (PTransform t).
Proof. unfold vision_object. cbn [attrs]. by simplify_map_eq. Qed.

Lemma subset_view_object h l d indices :
  h !! l = Some (subset_object d indices) → subset_view h l = Some (d, indices).
Proof.
  intros Hl. unfold subset_view. rewrite Hl. unfold subset_object.
  by simplify_map_eq.
Qed.

(** An attribute that [Subset] does not read leaves the view as it was. *)
Lemma subset_view_setattr h l d indices v :
  h !! l = Some (subset_object d indices) →
  subset_view (<[l := PyObj Subset (<["transform" := v]> (attrs (subset_object d indices)))]> h) l
  = Some (d, indices).
Proof.
  intros Hl. unfold subset_view. rewrite lookup_insert_eq.
  unfold subset_object. cbn [attrs]. by simplify_map_eq.
Qed.

Lemma subset_view_insert_ne h l l' o :
  l ≠ l' → subset_view (<[l' := o]> h) l = subset_view h l.
Proof. intros Hne. unfold subset_view. by rewrite lookup_insert_ne. Qed.

Lemma subset_view_inv h l d indices :
  subset_view h l = Some (d, indices) →
  ∃ a, h !! l = Some (PyObj Subset a)
     ∧ a !! "dataset" = Some (PRef d) ∧ a !! "indices" = Some (PInts indices).
Proof.
  unfold subset_view. intros H.
  destruct (h !! l) as [[[] a]|] eqn:Hl; try discriminate.
  destruct (a !! "dataset") as [[d'| |]|] eqn:Hd; try discriminate.
  destruct (a !! "indices") as [[|indices'|]|] eqn:Hi; try discriminate.
  simplify_eq. by exists a.
Qed.

Lemma py_len_vision h l targets t :
  h !! l = Some (vision_object targets t) → py_len h l = inr (length targets).
Proof.
  intros Hl. unfold py_len. rewrite Hl.
  cbn [cls vision_object]. fold (vision_object targets t).
  by rewrite vision_object_targets.
Qed.

Lemma py_len_subset h l d indices :
  subset_view h l = Some (d, indices) → py_len h l = inr (length indices).
Proof.
  intros (a & Hl & _ & Hi)%subset_view_inv. unfold py_len. rewrite Hl. cbn [cls attrs].
  by rewrite Hi.
Qed.

Lemma getitem_vision h l targets t i target :
  h !! l = Some (vision_object targets t) → targets !! i = Some target →
  getitem h l i = inr ({| source := i; preprocessing := t |}, target).
Proof.
  intros Hl Hi. unfold getitem, recursion_limit.
  cbn [getitem_at Nat.of_num_uint Nat.of_uint Nat.of_uint_acc Nat.tail_mul
       Nat.tail_addmul Nat.tail_add].
  rewrite Hl. cbn [cls vision_object]. fold (vision_object targets t).
  rewrite vision_object_targets, vision_object_transform. by rewrite Hi.
Qed.

(** An item of a [Subset] is the item of the underlying dataset,
    preprocessed by the underlying dataset's transform. *)
Lemma getitem_subset h l d indices targets t i j target :
  subset_view h l = Some (d, indices) → indices !! i = Some j →
  h !! d = Some (vision_object targets t) → targets !! j = Some target →
  getitem h l i = inr ({| source := j; preprocessing := t |}, target).
Proof.
  intros (a & Hl & Hd & Hi)%subset_view_inv Hij Hobj Hj.
  pose proof (getitem_vision h d targets t j target Hobj Hj) as Hget.
  unfold getitem, recursion_limit in *.
  cbn [getitem_at Nat.of_num_uint Nat.of_uint Nat.of_uint_acc Nat.tail_mul
       Nat.tail_addmul Nat.tail_add] in *.
  rewrite Hl. cbn [cls attrs]. rewrite Hd, Hi, Hij.
  rewrite Hobj in *. cbn [cls vision_object] in *. fold (vision_object targets t) in *.
  rewrite vision_object_targets, vision_object_transform in *. by rewrite Hj.
Qed.

End Data.

Section Split.
Context `{Sc : Scalar} `{Su : !Substrate}.

Lemma bind_inr {A B} (m : M A) (k : A → M B) w w' a :
  m w = (w', inr a) → bind m k w = k a w'.
Proof. intros H. unfold bind. by rewrite H. Qed.

Lemma bind_inl {A B} (m : M A) (k : A → M B) w w' e :
  m w = (w', inl e) → bind m k w = (w', inl e).
Proof. intros H. unfold bind. by rewrite H. Qed.

Lemma emit_eq (e : event) w : emit e w = (set_log (log w ++ [e]) w, inr ()).
Proof. reflexivity. Qed.

Lemma len_eq l n w : py_len (heap w) l = inr n → len l w = (w, inr n).
Proof. intros H. unfold len, gets, lift, bind. by rewrite H. Qed.

Lemma len_fails l e w : py_len (heap w) l = inl e → len l w = (w, inl e).
Proof. intros H. unfold len, gets, lift, bind. by rewrite H. Qed.

Lemma shuffle_eq x w :
  shuffle x w = (set_rng (random_shuffle (rng w) x).2 w,
                 inr (random_shuffle (rng w) x).1).
Proof. unfold shuffle. by destruct (random_shuffle _ _). Qed.

Lemma alloc_eq o w :
  alloc o w = (set_heap (insert (next_loc w) o) (S (next_loc w)) w, inr (next_loc w)).
Proof. reflexivity. Qed.

Lemma getattr_eq l name o v w :
  heap w !! l = Some o → attrs o !! name = Some v → getattr l name w = (w, inr v).
Proof. intros Hl Hv. unfold getattr, gets, bind, ret. by rewrite Hl, Hv. Qed.

Lemma setattr_eq l name v o w :
  heap w !! l = Some o →
  setattr l name v w
  = (set_heap (insert l (PyObj (cls o) (<[name:=v]> (attrs o)))) (next_loc w) w, inr ()).
Proof. intros Hl. unfold setattr, gets, bind, modify. by rewrite Hl. Qed.

Lemma idx_of_Permutation ds w : idx_of ds w ≡ₚ seq 0 (length (train_targets ds)).
Proof. apply random_shuffle_Permutation. Qed.

Lemma idx_of_lt ds w i : i ∈ idx_of ds w ↔ i < length (train_targets ds).
Proof. rewrite idx_of_Permutation, elem_of_seq. lia. Qed.

Lemma idx_of_NoDup ds w : NoDup (idx_of ds w).
Proof. rewrite idx_of_Permutation. apply NoDup_seq. Qed.

Lemma all_datasets_CIFAR10_eq ds w :
  all_datasets_CIFAR10 ds w
  = (set_heap
       (λ h, <[S (next_loc w) := vision_object (test_targets ds) TestPreprocessing]>
               (<[next_loc w := vision_object (train_targets ds) TrainAugmentation]> h))
       (S (S (next_loc w)))
       (set_log (log w ++ [EvAllDatasets "CIFAR10"]) w),
     inr (input_size ds, num_classes ds, next_loc w, S (next_loc w))).
Proof. reflexivity. Qed.

Lemma loaded_heap_dataset ds w :
  loaded_heap ds w !! next_loc w = Some (vision_object (train_targets ds) TrainAugmentation).
Proof. unfold loaded_heap. rewrite lookup_insert_ne by lia. apply lookup_insert_eq. Qed.

Lemma loaded_heap_test_dataset ds w :
  loaded_heap ds w !! S (next_loc w)
  = Some (vision_object (test_targets ds) TestPreprocessing).
Proof. unfold loaded_heap. apply lookup_insert_eq. Qed.

Lemma split_heap_dataset ds w :
  split_heap ds w !! next_loc w = Some (vision_object (train_targets ds) TrainAugmentation).
Proof.
  unfold split_heap. cbv zeta. rewrite !lookup_insert_ne by lia.
  apply loaded_heap_dataset.
Qed.

Lemma split_heap_test_dataset ds w :
  split_heap ds w !! S (next_loc w)
  = Some (vision_object (test_targets ds) TestPreprocessing).
Proof.
  unfold split_heap. cbv zeta. rewrite !lookup_insert_ne by lia.
  apply loaded_heap_test_dataset.
Qed.

Lemma split_heap_train ds w :
  subset_view (split_heap ds w) (S (S (next_loc w)))
  = Some (next_loc w, take (val_size (length (train_targets ds))) (idx_of ds w)).
Proof.
  unfold split_heap. cbv zeta. rewrite !subset_view_insert_ne by lia.
  apply subset_view_object, lookup_insert_eq.
Qed.

Lemma split_heap_val ds w :
  subset_view (split_heap ds w) (S (S (S (next_loc w))))
  = Some (next_loc w, drop (val_size (length (train_targets ds))) (idx_of ds w)).
Proof.
  unfold split_heap. cbv zeta. apply subset_view_setattr, lookup_insert_eq.
Qed.

(** The assignment of line 54 did land: in the instance dictionary of
    the [Subset] object. *)
Lemma split_heap_val_transform ds w :
  ∃ o, split_heap ds w !! S (S (S (next_loc w))) = Some o
     ∧ attrs o !! "transform" = Some (PTransform TestPreprocessing).
Proof.
  unfold split_heap. cbv zeta. eexists. split; [apply lookup_insert_eq|].
  cbn [attrs]. apply lookup_insert_eq.
Qed.

Lemma split_datasets_eq cfg ds w :
  split_datasets cfg (next_loc w) (S (next_loc w))
    (set_heap (λ _, loaded_heap ds w) (S (S (next_loc w)))
       (set_log (log w ++ [EvAllDatasets "CIFAR10"]) w))
  = (data_world cfg ds w,
     inr (if final_model cfg then next_loc w else S (S (next_loc w)),
          if final_model cfg then S (next_loc w) else S (S (S (next_loc w))))).
Proof.
  unfold split_datasets.
  erewrite (bind_inr (len _)); cycle 1.
  { apply len_eq. world_simpl. eapply py_len_vision, loaded_heap_dataset. }
  erewrite (bind_inr (shuffle _)) by apply shuffle_eq.
  unfold data_world. destruct (final_model cfg).
  { reflexivity. }
  unfold Subset_new.
  erewrite (bind_inr (alloc _)) by apply alloc_eq.
  erewrite (bind_inr (alloc _)) by apply alloc_eq.
  erewrite (bind_inr (getattr _ _)); cycle 1.
  { eapply getattr_eq.
    - world_simpl. rewrite !lookup_insert_ne by lia. apply loaded_heap_test_dataset.
    - apply vision_object_transform. }
  erewrite (bind_inr (setattr _ _ _)); cycle 1.
  { apply setattr_eq. world_simpl. apply lookup_insert_eq. }
  reflexivity.
Qed.

Lemma prepare_data_eq cfg ds w :
  prepare_data cfg ds w
  = (data_world cfg ds w,
     inr (num_classes ds, next_loc w, S (next_loc w),
          if final_model cfg then next_loc w else S (S (next_loc w)),
          if final_model cfg then S (next_loc w) else S (S (S (next_loc w))))).
Proof.
  unfold prepare_data.
  rewrite (bind_inr _ _ _ _ _ (all_datasets_CIFAR10_eq ds w)). cbv beta iota.
  erewrite (bind_inr (split_datasets _ _ _)) by apply (split_datasets_eq cfg ds w).
  reflexivity.
Qed.

End Split.

Section SplitProperties.
Context `{Sc : Scalar} `{Su : !Substrate}.

(** C5: in non-final-model mode the training and validation index sets
    are disjoint and together are the indices of the full training
    dataset; in final-model mode the validation set is the test set
    itself (and the training set the full training dataset). *)
Theorem split_index_sets (cfg : Config) (ds : Provider) (w : World) :
  ∃ w' dataset test_dataset train_dataset val_dataset,
    prepare_data cfg ds w
    = (w', inr (num_classes ds, dataset, test_dataset, train_dataset, val_dataset))
    ∧ heap w' !! dataset = Some (vision_object (train_targets ds) TrainAugmentation)
    ∧ heap w' !! test_dataset = Some (vision_object (test_targets ds) TestPreprocessing)
    ∧ if final_model cfg
      then train_dataset = dataset ∧ val_dataset = test_dataset
      else ∃ train_idx val_idx,
             subset_view (heap w') train_dataset = Some (dataset, train_idx)
           ∧ subset_view (heap w') val_dataset = Some (dataset, val_idx)
           ∧ (∀ i, i ∈ train_idx → i ∉ val_idx)
           ∧ (∀ i, i ∈ train_idx ∨ i ∈ val_idx ↔ i < length (train_targets ds)).
Proof.
  eexists _, _, _, _, _. split; [apply prepare_data_eq|].
  unfold data_world. world_simpl. destruct (final_model cfg).
  { split; [apply loaded_heap_dataset|]. split; [apply loaded_heap_test_dataset|]. done. }
  split; [apply split_heap_dataset|]. split; [apply split_heap_test_dataset|].
  eexists _, _. split; [apply split_heap_train|]. split; [apply split_heap_val|].
  set (k := val_size (length (train_targets ds))).
  pose proof (idx_of_NoDup ds w) as Hnd.
  rewrite <- (take_drop k (idx_of ds w)) in Hnd.
  apply NoDup_app in Hnd as (_ & Hdisj & _).
  split; [exact Hdisj|].
  intros i. rewrite <- (idx_of_lt ds w), <- elem_of_app. by rewrite take_drop.
Qed.

(** C1, as the code has it: in non-final-model mode the assignment of
    line 54 stores the test-time transform in the instance dictionary of
    the [Subset] object, which [Subset.__getitem__] never reads; every
    example drawn from the validation split is preprocessed by the
    transform of the underlying training dataset, the augmentation. *)
Theorem validation_items_use_training_transform (cfg : Config) (ds : Provider) (w : World) :
  final_model cfg = false →
  ∃ w' dataset test_dataset train_dataset val_dataset val_object n,
    prepare_data cfg ds w
    = (w', inr (num_classes ds, dataset, test_dataset, train_dataset, val_dataset))
    ∧ heap w' !! val_dataset = Some val_object
    ∧ attrs val_object !! "transform" = Some (PTransform TestPreprocessing)
    ∧ py_len (heap w') val_dataset = inr n
    ∧ ∀ i, i < n →
        ∃ s label, getitem (heap w') val_dataset i = inr (s, label)
                 ∧ preprocessing s = TrainAugmentation.
Proof.
  intros Hfinal.
  destruct (split_heap_val_transform ds w) as (o & Ho & Ht).
  eexists _, _, _, _, _, o, _. split; [apply prepare_data_eq|].
  unfold data_world. rewrite Hfinal. world_simpl.
  split; [exact Ho|]. split; [exact Ht|].
  split; [eapply py_len_subset, split_heap_val|].
  intros i Hi.
  destruct (lookup_lt_is_Some_2 _ _ Hi) as [j Hj].
  assert (j < length (train_targets ds)) as Hlt.
  { apply (idx_of_lt ds w). eapply subseteq_drop, list_elem_of_lookup_2, Hj. }
  destruct (lookup_lt_is_Some_2 _ _ Hlt) as [label Hlabel].
  eexists _, label. split.
  - eapply getitem_subset;
      [apply split_heap_val | exact Hj | apply split_heap_dataset | exact Hlabel].
  - reflexivity.
Qed.

End SplitProperties.

(** ** Everything before the first epoch (lines 37-184) *)

Section Setup.
Context `{Sc : Scalar} `{Su : !Substrate}.

Lemma prepared_world_len_val cfg ds w :
  py_len (heap (prepared_world cfg ds w)) (val_dataset_of cfg w)
  = inr (len_val_dataset cfg ds).
Proof.
  unfold prepared_world, data_world, val_dataset_of, len_val_dataset. world_simpl.
  set (w0 := set_log _ w).
  destruct (final_model cfg).
  - eapply py_len_vision, (loaded_heap_test_dataset ds w0).
  - erewrite py_len_subset by apply (split_heap_val ds w0).
    rewrite length_drop. f_equal. f_equal.
    rewrite (Permutation_length (idx_of_Permutation ds _)). apply length_seq.
Qed.

Lemma prepared_world_len_test cfg ds w :
  py_len (heap (prepared_world cfg ds w)) (S (next_loc w))
  = inr (length (test_targets ds)).
Proof.
  unfold prepared_world, data_world. world_simpl.
  set (w0 := set_log _ w). destruct (final_model cfg).
  - eapply py_len_vision, (loaded_heap_test_dataset ds w0).
  - eapply py_len_vision, (split_heap_test_dataset ds w0).
Qed.

Lemma setup_prefix cfg ds w {A} (k : _ → M A) :
  (emit (EvSummaryWriter (output_dir cfg)) ;;;
   let* r := prepare_data cfg ds in k r) w
  = k (num_classes ds, next_loc w, S (next_loc w),
       train_dataset_of cfg w, val_dataset_of cfg w) (prepared_world cfg ds w).
Proof.
  erewrite bind_inr by apply emit_eq.
  erewrite bind_inr by apply prepare_data_eq.
  reflexivity.
Qed.

(** Lines 58-65: an architecture other than the two named leaves
    [model_class] unbound, and its first use raises; by then the writer
    is open and the datasets are loaded. *)
Lemma setup_unsupported cfg ds w :
  select_model_class (architecture cfg) = None →
  setup cfg ds w = (prepared_world cfg ds w, inl (UnboundLocalError "model_class")).
Proof.
  intros Hsel. unfold setup. rewrite setup_prefix. cbv beta iota zeta.
  rewrite Hsel. reflexivity.
Qed.

Lemma setup_model cfg ds w c {A} (k : M A) :
  (ResNet_DUQ cfg (Some c) ;;;
   average_reset "loss" ;;; average_reset "accuracy" ;;;
   average_reset "bce" ;;; average_reset "gradient_penalty" ;;; k)
    (prepared_world cfg ds w)
  = k (model_world cfg ds c w).
Proof. reflexivity. Qed.

Lemma setup_batch_size cfg ds w c :
  select_model_class (architecture cfg) = Some c →
  (batch_size cfg <= 0)%Z →
  setup cfg ds w
  = (model_world cfg ds c w,
     inl (ValueError "batch_size should be a positive integer value")).
Proof.
  intros Hsel Hbs. unfold setup. rewrite setup_prefix. cbv beta iota zeta.
  rewrite Hsel, setup_model. unfold DataLoader_new at 1.
  apply Z.leb_le in Hbs. unfold bind at 1. rewrite Hbs. reflexivity.
Qed.

(** The outcome of [setup] for a supported architecture and a positive
    training batch size: the two assertions decide. *)
Lemma setup_supported cfg ds w c :
  select_model_class (architecture cfg) = Some c →
  (0 < batch_size cfg)%Z →
  setup cfg ds w
  = (model_world cfg ds c w,
     if (len_val_dataset cfg ds mod test_batch_size =? 0)
        && (length (test_targets ds) mod test_batch_size =? 0)
     then inr (num_classes ds, train_dataset_of cfg w, val_dataset_of cfg w,
               S (next_loc w),
               {| dl_dataset := train_dataset_of cfg w;
                  dl_batch_size := Z.to_nat (batch_size cfg);
                  dl_shuffle := true; dl_drop_last := true |},
               {| dl_dataset := val_dataset_of cfg w;
                  dl_batch_size := test_batch_size;
                  dl_shuffle := false; dl_drop_last := false |},
               {| dl_dataset := S (next_loc w);
                  dl_batch_size := test_batch_size;
                  dl_shuffle := false; dl_drop_last := false |})
     else inl (AssertionError "incorrect result averaging")).
Proof.
  intros Hsel Hbs. unfold setup. rewrite setup_prefix. cbv beta iota zeta.
  rewrite Hsel, setup_model. unfold DataLoader_new at 1.
  apply Z.leb_gt in Hbs. unfold bind at 1. rewrite Hbs. unfold ret at 1. cbv beta iota.
  erewrite bind_inr; cycle 1.
  { apply len_eq. unfold model_world. world_simpl. apply prepared_world_len_val. }
  destruct (len_val_dataset cfg ds mod test_batch_size =? 0); [|reflexivity].
  unfold py_assert at 1. erewrite (bind_inr (ret ())) by reflexivity.
  erewrite bind_inr; cycle 1.
  { apply len_eq. unfold model_world. world_simpl. apply prepared_world_len_test. }
  destruct (length (test_targets ds) mod test_batch_size =? 0); reflexivity.
Qed.

End Setup.

(** ** The batch sampler *)

Section BatchSampler.

Lemma batch_sampler_elements bs drop_last batch sampler b i :
  b ∈ batch_sampler bs drop_last batch sampler → i ∈ b → i ∈ batch ++ sampler.
Proof.
  revert batch. induction sampler as [|idx rest IH]; intros batch Hb Hi; simpl in Hb.
  - destruct ((0 <? length batch) && negb drop_last); [|by apply elem_of_nil in Hb].
    apply list_elem_of_singleton in Hb as ->. by rewrite app_nil_r.
  - destruct (length (batch ++ [idx]) =? bs).
    + apply elem_of_cons in Hb as [->|Hb].
      * apply elem_of_app in Hi as [Hi|Hi]; apply elem_of_app; [by left|right].
        apply list_elem_of_singleton in Hi as ->. by apply elem_of_cons; left.
      * specialize (IH [] Hb Hi). simpl in IH.
        apply elem_of_app. right. by apply elem_of_cons; right.
    + specialize (IH _ Hb Hi). rewrite <- (assoc_L (++)) in IH. exact IH.
Qed.

(** With [drop_last], every batch is full. *)
Lemma batch_sampler_full bs batch sampler :
  length batch < bs →
  Forall (λ b, length b = bs) (batch_sampler bs true batch sampler).
Proof.
  revert batch. induction sampler as [|idx rest IH]; intros batch Hlt; simpl.
  - rewrite andb_false_r. constructor.
  - destruct (length (batch ++ [idx]) =? bs) eqn:E.
    + apply Nat.eqb_eq in E. constructor; [exact E|]. apply IH. simpl. lia.
    + apply Nat.eqb_neq in E. apply IH. rewrite length_app in *. simpl in *. lia.
Qed.

(** With [drop_last], the number of batches is the quotient: a trailing
    partial batch is dropped. *)
Lemma batch_sampler_count bs batch sampler :
  length batch < bs →
  length (batch_sampler bs true batch sampler) = (length batch + length sampler) / bs.
Proof.
  revert batch. induction sampler as [|idx rest IH]; intros batch Hlt; simpl.
  - rewrite andb_false_r. simpl. rewrite Nat.add_0_r. symmetry. by apply Nat.div_small.
  - destruct (length (batch ++ [idx]) =? bs) eqn:E.
    + apply Nat.eqb_eq in E. rewrite length_app in E. simpl in E. simpl.
      rewrite IH by (simpl; lia). simpl.
      replace (length batch + S (length rest)) with (1 * bs + length rest) by lia.
      rewrite Nat.div_add_l by lia. lia.
    + apply Nat.eqb_neq in E. rewrite length_app in E. simpl in E.
      rewrite IH by (rewrite length_app; simpl; lia).
      rewrite length_app. simpl. f_equal. lia.
Qed.

Lemma batch_sampler_example :
  batch_sampler 3 true [] [4; 0; 6; 2; 5; 1; 3] = [[4; 0; 6]; [2; 5; 1]]
  ∧ batch_sampler 3 false [] [4; 0; 6; 2; 5; 1; 3] = [[4; 0; 6]; [2; 5; 1]; [3]].
Proof. split; reflexivity. Qed.

End BatchSampler.

(** ** Failing before training, and the evaluation batch size *)

Section BeforeTraining.
Context `{Sc : Scalar} `{Su : !Substrate}.

Lemma loader_batches_eq dl n w :
  py_len (heap w) (dl_dataset dl) = inr n →
  loader_batches dl w
  = if dl_shuffle dl
    then (set_rng (random_shuffle (rng w) (seq 0 n)).2 w,
          inr (batch_sampler (dl_batch_size dl) (dl_drop_last dl) []
                 (random_shuffle (rng w) (seq 0 n)).1))
    else (w, inr (batch_sampler (dl_batch_size dl) (dl_drop_last dl) [] (seq 0 n))).
Proof.
  intros Hn. unfold loader_batches.
  erewrite bind_inr by (apply len_eq, Hn).
  destruct (dl_shuffle dl).
  - erewrite bind_inr by apply shuffle_eq. reflexivity.
  - reflexivity.
Qed.

Lemma model_world_log cfg ds mc w :
  log (model_world cfg ds mc w)
  = log w ++ [EvSummaryWriter (output_dir cfg); EvAllDatasets "CIFAR10"; EvResNetDUQ mc].
Proof.
  unfold model_world, prepared_world, data_world. world_simpl.
  by rewrite <- !app_assoc.
Qed.

Lemma prepared_world_log cfg ds w :
  log (prepared_world cfg ds w)
  = log w ++ [EvSummaryWriter (output_dir cfg); EvAllDatasets "CIFAR10"].
Proof.
  unfold prepared_world, data_world. world_simpl. by rewrite <- !app_assoc.
Qed.

Lemma model_world_len_train cfg ds mc w :
  py_len (heap (model_world cfg ds mc w)) (train_dataset_of cfg w)
  = inr (len_train_dataset cfg ds).
Proof.
  unfold model_world, prepared_world, data_world, train_dataset_of, len_train_dataset.
  world_simpl. set (w0 := set_log _ w). destruct (final_model cfg).
  - eapply py_len_vision, (loaded_heap_dataset ds w0).
  - erewrite py_len_subset by apply (split_heap_train ds w0).
    rewrite length_take. f_equal. f_equal.
    rewrite (Permutation_length (idx_of_Permutation ds _)). apply length_seq.
Qed.

(** C7: when the validation or the test set size is not a multiple of
    the evaluation batch size, [main] raises before any training epoch
    has started (for a supported architecture and a positive training
    batch size: the AssertionError of lines 175-176); the training
    loader, built with [drop_last], yields only full batches, their
    number the quotient of the training set size by the batch size. *)
Theorem indivisible_evaluation_sizes_are_fatal :
  (∀ (cfg : Config) (ds : Provider) (w : World),
     len_val_dataset cfg ds mod test_batch_size ≠ 0
     ∨ length (test_targets ds) mod test_batch_size ≠ 0 →
     ∃ w' e, main cfg ds w = (w', inl e)
       ∧ training_epochs (log w') = training_epochs (log w)
       ∧ (∀ mc, select_model_class (architecture cfg) = Some mc →
                (0 < batch_size cfg)%Z →
                e = AssertionError "incorrect result averaging"))
  ∧ (∀ (cfg : Config) (ds : Provider) (w : World) mc,
       select_model_class (architecture cfg) = Some mc →
       (0 < batch_size cfg)%Z →
       len_val_dataset cfg ds mod test_batch_size = 0 →
       length (test_targets ds) mod test_batch_size = 0 →
       ∃ w' nc tr va te train_loader val_loader test_loader,
         setup cfg ds w
         = (w', inr (nc, tr, va, te, train_loader, val_loader, test_loader))
         ∧ dl_drop_last train_loader = true
         ∧ runs (loader_batches train_loader) w' (λ batches _,
             Forall (λ b, length b = Z.to_nat (batch_size cfg)) batches
             ∧ length batches
               = len_train_dataset cfg ds / Z.to_nat (batch_size cfg))).
Proof.
  split.
  - intros cfg ds w Hdiv. unfold main.
    destruct (select_model_class (architecture cfg)) as [mc|] eqn:Hsel.
    + destruct (Z.leb_spec (batch_size cfg) 0) as [Hbs|Hbs].
      * eexists _, _.
        split; [eapply bind_inl, (setup_batch_size _ _ _ _ Hsel Hbs)|].
        rewrite model_world_log, training_epochs_app. cbn. rewrite app_nil_r.
        split; [done|]. intros mc' _ ?. lia.
      * eexists _, _.
        split; [eapply bind_inl; rewrite (setup_supported _ _ _ _ Hsel Hbs)|].
        { assert ((len_val_dataset cfg ds mod test_batch_size =? 0)
                  && (length (test_targets ds) mod test_batch_size =? 0) = false) as ->;
            [|reflexivity].
          apply andb_false_iff. rewrite !Nat.eqb_neq. exact Hdiv. }
        rewrite model_world_log, training_epochs_app. cbn. rewrite app_nil_r.
        split; [done|]. intros; done.
    + eexists _, _. split; [eapply bind_inl, (setup_unsupported _ _ _ Hsel)|].
      rewrite prepared_world_log, training_epochs_app. cbn. rewrite app_nil_r.
      split; [done|]. intros; done.
  - intros cfg ds w mc Hsel Hbs Hval Htest.
    eexists _, _, _, _, _, _, _, _. split.
    { rewrite (setup_supported _ _ _ _ Hsel Hbs).
      apply Nat.eqb_eq in Hval, Htest. rewrite Hval, Htest. reflexivity. }
    split; [reflexivity|].
    unfold runs.
    erewrite loader_batches_eq by (cbn [dl_dataset]; apply model_world_len_train).
    cbn [dl_shuffle dl_batch_size dl_drop_last].
    eexists _, _. split; [reflexivity|]. split.
    + apply batch_sampler_full. simpl. lia.
    + rewrite batch_sampler_count by (simpl; lia). simpl. f_equal.
      rewrite (Permutation_length (random_shuffle_Permutation _ _)). apply length_seq.
Qed.

(** C10: whatever [batch_size] is configured, the validation and test
    loaders are built with batch size 200, the configured value going to
    the training loader only; and the two assertions that decide whether
    [setup] returns test the validation and test set sizes modulo 200. *)
Theorem evaluation_batch_size_is_200 (cfg : Config) (ds : Provider) (w : World) mc :
  select_model_class (architecture cfg) = Some mc →
  (0 < batch_size cfg)%Z →
  ∃ w',
    py_len (heap w') (val_dataset_of cfg w) = inr (len_val_dataset cfg ds)
    ∧ py_len (heap w') (S (next_loc w)) = inr (length (test_targets ds))
    ∧ if (len_val_dataset cfg ds mod 200 =? 0) && (length (test_targets ds) mod 200 =? 0)
      then ∃ nc tr train_loader val_loader test_loader,
             setup cfg ds w
             = (w', inr (nc, tr, val_dataset_of cfg w, S (next_loc w),
                         train_loader, val_loader, test_loader))
             ∧ dl_dataset val_loader = val_dataset_of cfg w
             ∧ dl_batch_size val_loader = 200
             ∧ dl_dataset test_loader = S (next_loc w)
             ∧ dl_batch_size test_loader = 200
             ∧ dl_dataset train_loader = tr
             ∧ dl_batch_size train_loader = Z.to_nat (batch_size cfg)
      else setup cfg ds w = (w', inl (AssertionError "incorrect result averaging")).
Proof.
  intros Hsel Hbs. exists (model_world cfg ds mc w).
  split; [apply prepared_world_len_val|]. split; [apply prepared_world_len_test|].
  rewrite (setup_supported _ _ _ _ Hsel Hbs). fold test_batch_size.
  destruct ((len_val_dataset cfg ds mod test_batch_size =? 0)
            && (length (test_targets ds) mod test_batch_size =? 0)); [|reflexivity].
  eexists _, _, _, _, _. split; [reflexivity|]. done.
Qed.

(** Called directly with an architecture it does not know, [main] does
    fail, on the unbound [model_class], with the writer open and the
    datasets loaded. *)
Lemma main_unsupported_architecture (cfg : Config) (ds : Provider) (w : World) :
  select_model_class (architecture cfg) = None →
  ∃ w', main cfg ds w = (w', inl (UnboundLocalError "model_class"))
      ∧ log w' = log w ++ [EvSummaryWriter (output_dir cfg); EvAllDatasets "CIFAR10"].
Proof.
  intros Hsel. eexists. split.
  - unfold main. eapply bind_inl, (setup_unsupported _ _ _ Hsel).
  - apply prepared_world_log.
Qed.

(** C9: an architecture outside the supported choices is refused by the
    argument parser: the program prints the usage error and exits with
    status 2; nothing was allocated, no writer, no dataset, no model. *)
Theorem unsupported_architecture_is_refused
    (argv : Argv) (ds : Provider) (w : World) (a : string) :
  arg_architecture argv = Some a → a ∉ architecture_choices →
  ∃ w', program argv ds w = (w', inl (SystemExit 2))
      ∧ log w' = log w ++ [EvUsageError "--architecture"]
      ∧ filter (λ e, allocates e = true) (log w') = filter (λ e, allocates e = true) (log w)
      ∧ heap w' = heap w.
Proof.
  intros Harg Hnot. eexists. split.
  - unfold program, parse_args. rewrite Harg.
    rewrite (bool_decide_eq_false_2 _ Hnot). reflexivity.
  - world_simpl. split; [done|]. split; [|done].
    by rewrite filter_app, app_nil_r.
Qed.

(** Every configuration the parser lets through names a model class. *)
Lemma parse_args_supported (argv : Argv) (w w' : World) (cfg : Config) :
  parse_args argv w = (w', inr cfg) →
  is_Some (select_model_class (architecture cfg)).
Proof.
  unfold parse_args. destruct (arg_architecture argv) as [a|].
  - destruct (bool_decide (a ∈ architecture_choices)) eqn:Hin; [|discriminate].
    intros [= <- <-]. cbn [architecture].
    apply bool_decide_eq_true_1 in Hin. unfold architecture_choices in Hin.
    apply elem_of_cons in Hin as [->|Hin]; [by eexists|].
    apply list_elem_of_singleton in Hin as ->. by eexists.
  - intros [= <- <-]. by eexists.
Qed.

End BeforeTraining.

(** ** An engine's pass over a loader *)

Section Engines.
Context `{Sc : Scalar} `{Su : !Substrate}.

Lemma fetchable_spec h dataset :
  fetchable h dataset = true →
  ∃ n, py_len h dataset = inr n ∧ ∀ i, i < n → is_inr (getitem h dataset i) = true.
Proof.
  unfold fetchable. destruct (py_len h dataset) as [|n]; [done|].
  intros Hall. exists n. split; [done|]. intros i Hi.
  rewrite forallb_forall in Hall. apply Hall, in_seq. lia.
Qed.

Lemma fetch_succeeds h dataset n batch :
  (∀ i, i < n → is_inr (getitem h dataset i) = true) →
  Forall (λ i, i < n) batch →
  ∃ items, fetch h dataset batch = inr items.
Proof.
  intros Hget. induction 1 as [|i batch Hi _ [items IH]]; simpl; [by eexists|].
  specialize (Hget i Hi). destruct (getitem h dataset i); [done|].
  rewrite IH. by eexists.
Qed.

(** The batches of a pass only hold indices of the dataset. *)
Lemma loader_batches_in_range dl n w :
  py_len (heap w) (dl_dataset dl) = inr n →
  runs (loader_batches dl) w (λ batches w',
    keeps w w' ∧ trainer_state w' = trainer_state w
    ∧ evaluator_state w' = evaluator_state w
    ∧ Forall (Forall (λ i, i < n)) batches).
Proof.
  intros Hn. unfold runs. rewrite (loader_batches_eq dl n w Hn).
  assert (∀ sampler, sampler ≡ₚ seq 0 n →
            Forall (Forall (λ i, i < n))
              (batch_sampler (dl_batch_size dl) (dl_drop_last dl) [] sampler)) as Hrange.
  { intros sampler Hperm. apply Forall_forall. intros b Hb. apply Forall_forall.
    intros i Hi. pose proof (batch_sampler_elements _ _ _ _ _ _ Hb Hi) as Hin.
    simpl in Hin. rewrite Hperm in Hin. apply elem_of_seq in Hin. lia. }
  destruct (dl_shuffle dl); eexists _, _; (split; [reflexivity|]).
  - split; [by constructor|]. do 2 (split; [done|]).
    apply Hrange, random_shuffle_Permutation.
  - split; [apply keeps_refl|]. do 2 (split; [done|]). by apply Hrange.
Qed.

Lemma keeps_states_refl e w : keeps_states e w w.
Proof. unfold keeps_states. split; [apply keeps_refl|]. by destruct e. Qed.

Lemma keeps_states_trans e w1 w2 w3 :
  keeps_states e w1 w2 → keeps_states e w2 w3 → keeps_states e w1 w3.
Proof.
  intros (Hk1 & He1 & Hm1 & Ho1) (Hk2 & He2 & Hm2 & Ho2).
  split; [by eapply keeps_trans|]. destruct e; repeat split; congruence.
Qed.

Lemma average_updates_keep e (ms : list (string * nat)) output w :
  runs (mfor ms (λ m, average_update m.1 (output_at m.2 output))) w
       (λ _ w', keeps_states e w w').
Proof.
  revert w. induction ms as [|m ms IH]; intros w; simpl.
  - apply runs_ret, keeps_states_refl.
  - eapply runs_bind.
    + unfold runs, average_update, modify.
      eexists _, _. split; [reflexivity|].
      instantiate (1 := λ _ w', keeps_states e w w'). cbv beta.
      split; [by constructor|]. by destruct e.
    + intros [] w1 H1. cbv beta in *.
      eapply runs_weaken; [apply IH|]. intros [] w2 H2. cbv beta in *.
      by eapply keeps_states_trans.
Qed.

Lemma run_iteration_keeps eng dl n batch w :
  process_keeps eng →
  py_len (heap w) (dl_dataset dl) = inr n →
  (∀ i, i < n → is_inr (getitem (heap w) (dl_dataset dl) i) = true) →
  Forall (λ i, i < n) batch →
  grad_enabled w = true →
  runs (run_iteration eng dl batch) w (λ _ w', keeps_states (eid eng) w w').
Proof.
  intros Hproc Hn Hget Hbatch Hgrad.
  destruct (fetch_succeeds _ _ _ _ Hget Hbatch) as [items Hitems].
  unfold run_iteration.
  eapply runs_step; [reflexivity|].
  eapply runs_step; [unfold lift; by rewrite Hitems|].
  eapply runs_step; [reflexivity|].
  eapply runs_step; [reflexivity|].
  set (w1 := set_log _ _).
  assert (keeps_states (eid eng) w w1) as Hw1.
  { unfold w1. split.
    - constructor; world_simpl; try done.
      + rewrite ood_epochs_app. cbn. by rewrite app_nil_r.
      + by destruct (eid eng).
    - by destruct (eid eng). }
  eapply runs_bind.
  { apply Hproc. unfold w1. world_simpl. exact Hgrad. }
  intros output w2 (Hk2 & Ht2 & He2). cbv beta in *.
  eapply runs_weaken; [apply (average_updates_keep (eid eng))|].
  intros [] w3 H3. cbv beta in *.
  eapply keeps_states_trans; [exact Hw1|].
  eapply keeps_states_trans; [|exact H3].
  split; [exact Hk2|]. destruct (eid eng); cbn [engine_state]; by rewrite ?Ht2, ?He2.
Qed.

Lemma iterations_keep eng dl n batches w :
  process_keeps eng →
  py_len (heap w) (dl_dataset dl) = inr n →
  (∀ i, i < n → is_inr (getitem (heap w) (dl_dataset dl) i) = true) →
  Forall (Forall (λ i, i < n)) batches →
  grad_enabled w = true →
  runs (mfor batches (run_iteration eng dl)) w (λ _ w', keeps_states (eid eng) w w').
Proof.
  intros Hproc Hn Hget Hbatches. revert w Hn Hget.
  induction Hbatches as [|batch batches Hbatch _ IH]; intros w Hn Hget Hgrad; simpl.
  - apply runs_ret, keeps_states_refl.
  - eapply runs_bind; [by eapply run_iteration_keeps|].
    intros [] w1 H1. cbv beta in *.
    destruct H1 as (Hk1 & H1).
    eapply runs_weaken.
    + apply IH.
      * by rewrite (keeps_heap _ _ Hk1).
      * by rewrite (keeps_heap _ _ Hk1).
      * by rewrite (keeps_grad_enabled _ _ Hk1).
    + intros [] w2 H2. cbv beta in *. by eapply keeps_states_trans.
Qed.

Lemma step_process_keeps cfg nc val_dataset val_loader :
  process_keeps (make_trainer cfg nc val_dataset val_loader).
Proof.
  intros [x y] w Hgrad. cbn [process_function make_trainer].
  unfold runs, step. run_unfold. cbn -[s_lit ood_epochs]. rewrite Hgrad.
  cbn -[s_lit ood_epochs].
  destruct (sgd_step _ _ _ _ _ _) as [p m] eqn:Hsgd.
  eexists _, _. split; [reflexivity|].
  split; [|done]. constructor; cbn -[s_lit ood_epochs]; try done.
  rewrite !ood_epochs_app. cbn. by rewrite !app_nil_r.
Qed.

Lemma eval_step_process_keeps cfg nc : process_keeps (make_evaluator cfg nc).
Proof.
  intros [x y] w Hgrad. cbn [process_function make_evaluator].
  unfold runs, eval_step. run_unfold. cbn -[s_lit ood_epochs]. rewrite Hgrad.
  cbn -[s_lit ood_epochs].
  eexists _, _. split; [reflexivity|].
  split; [|done]. constructor; cbn -[s_lit ood_epochs]; try done.
  rewrite !ood_epochs_app. cbn. by rewrite !app_nil_r.
Qed.

End Engines.

(** ** The evaluation pass and the epoch hook *)

Section Hook.
Context `{Sc : Scalar} `{Su : !Substrate}.

Lemma dict_get_eq (d : gmap string scalar) key v w :
  d !! key = Some v → dict_get d key w = (w, inr v).
Proof. intros H. unfold dict_get. by rewrite H. Qed.

(** One pass of the evaluator: it returns, leaves the trainer alone, and
    its [state.metrics] are exactly the three attached averages. *)
Lemma evaluator_run_spec cfg nc dl w :
  fetchable (heap w) (dl_dataset dl) = true →
  grad_enabled w = true →
  runs (engine_run (make_evaluator cfg nc) dl 1) w (λ _ w',
    keeps w w' ∧ trainer_state w' = trainer_state w
    ∧ ∃ acc bce GP,
        metrics (evaluator_state w')
        = <["gradient_penalty" := GP]> (<["bce" := bce]> (<["accuracy" := acc]> ∅))).
Proof.
  intros (n & Hn & Hget)%fetchable_spec Hgrad.
  unfold engine_run. cbn [seq mfor].
  eapply runs_step; [reflexivity|]. world_simpl.
  unfold run_epoch, run_epoch_iterations.
  cbn [eid attached on_epoch_completed make_evaluator evaluator_metrics mfor fst snd].
  eapply runs_bind; cycle 1.
  { intros a w' HQ. apply runs_ret. exact HQ. }
  eapply runs_bind; cycle 1.
  { intros a w' HQ. apply runs_ret. exact HQ. }
  do 3 (eapply runs_step; [reflexivity|]; world_simpl).
  eapply runs_bind.
  { apply (loader_batches_in_range dl n). world_simpl. exact Hn. }
  intros batches w1 (Hk1 & Ht1 & He1 & Hrange). cbv beta in *.
  destruct Hk1 as [Hh1 Hg1 Ho1 Hep1 Hl1 Hlr1]. world_simpl in *.
  eapply runs_bind.
  { eapply (iterations_keep (make_evaluator cfg nc) dl n batches w1);
      [apply eval_step_process_keeps | | | exact Hrange | ];
      rewrite ?Hh1, ?Hg1; assumption. }
  intros [] w2 (Hk2 & He2 & Hm2 & Ht2). cbv beta in *.
  cbn [eid make_evaluator engine_state] in *.
  destruct Hk2 as [Hh2 Hg2 Ho2 Hep2 Hl2 Hlr2].
  eapply runs_step; [reflexivity|]. world_simpl.
  eapply runs_eq; [reflexivity|]. world_simpl.
  split.
  - constructor; world_simpl; try congruence.
    rewrite !ood_epochs_app, Ho2, Ho1, !ood_epochs_app. cbn.
    by rewrite !app_nil_r.
  - split; [congruence|].
    rewrite Hm2, He1. world_simpl. by eexists _, _, _.
Qed.

Lemma ood_branch_eq val_dataset w :
  ood_branch val_dataset (epoch (trainer_state w)) w
  = (set_log (log w ++ ood_branch_events val_dataset (epoch (trainer_state w)) w) w,
     inr ()).
Proof.
  unfold ood_branch, ood_branch_events. run_unfold. cbv beta iota zeta.
  destruct (get_cifar_svhn_ood _ _) as [a r].
  destruct (get_auroc_classification _ _ _ _) as [a2 r2].
  world_simpl. by rewrite <- !app_assoc.
Qed.

Lemma ood_step_eq val_dataset w :
  (if 195 <? epoch (trainer_state w)
   then ood_branch val_dataset (epoch (trainer_state w)) else ret ()) w
  = (set_log (log w ++ (if 195 <? epoch (trainer_state w)
                        then ood_branch_events val_dataset (epoch (trainer_state w)) w
                        else [])) w, inr ()).
Proof.
  destruct (195 <? epoch (trainer_state w)); [apply ood_branch_eq|].
  unfold ret. rewrite app_nil_r. by destruct w.
Qed.

(** The hook, step by step. *)
Lemma log_results_spec
    (cfg : Config) (nc : nat) (val_dataset : loc) (val_loader : DataLoader)
    (w : World) (loss bce GP : scalar) :
  grad_enabled w = true →
  fetchable (heap w) (dl_dataset val_loader) = true →
  metrics (trainer_state w) !! "loss" = Some loss →
  metrics (trainer_state w) !! "bce" = Some bce →
  metrics (trainer_state w) !! "gradient_penalty" = Some GP →
  let e := epoch (trainer_state w) in
  let w1 := set_log (log w ++ [EvPrint (PrintTrain e loss bce GP);
                               EvAddScalar "Loss/train" loss e]
                           ++ (if 195 <? e then ood_branch_events val_dataset e w else []))
                    w in
  ∃ w2 w' acc val_bce val_GP,
    engine_run (make_evaluator cfg nc) val_loader 1 w1 = (w2, inr ())
    ∧ metrics (evaluator_state w2) !! "accuracy" = Some acc
    ∧ metrics (evaluator_state w2) !! "bce" = Some val_bce
    ∧ metrics (evaluator_state w2) !! "gradient_penalty" = Some val_GP
    ∧ metrics (evaluator_state w2) !! "loss" = None
    ∧ log_results cfg val_dataset (make_evaluator cfg nc) val_loader w = (w', inr ())
    ∧ log w'
      = log w2
        ++ [EvPrint (PrintValid e acc (s_add val_bce (s_mul (l_gradient_penalty cfg) val_GP))
                                val_bce val_GP);
            EvAddScalar "Loss/valid"
              (s_add val_bce (s_mul (l_gradient_penalty cfg) val_GP)) e;
            EvAddScalar "BCE/valid" val_bce e;
            EvAddScalar "GP/valid" val_GP e;
            EvAddScalar "Accuracy/valid" acc e;
            EvSchedulerStep]
    ∧ last_epoch w' = S (last_epoch w)
    ∧ heap w' = heap w ∧ grad_enabled w' = true
    ∧ ood_epochs (log w') = ood_epochs (log w) ++ (if 195 <? e then [e] else []).
Proof.
  intros Hgrad Hfetch Hloss Hbce HGP e w1.
  destruct (evaluator_run_spec cfg nc val_loader w1) as ([] & w2 & Hrun & Hk & Ht & Hmetrics).
  { exact Hfetch. } { exact Hgrad. }
  destruct Hmetrics as (acc & val_bce & val_GP & Hmetrics).
  exists w2. eexists. exists acc, val_bce, val_GP.
  split; [exact Hrun|].
  rewrite Hmetrics. do 4 (split; [by simplify_map_eq|]).
  assert (epoch (trainer_state w2) = e) as He2 by (by rewrite Ht).
  split.
  - unfold log_results.
    erewrite bind_inr by reflexivity.
    erewrite bind_inr by (apply dict_get_eq, Hloss).
    erewrite bind_inr by (apply dict_get_eq, Hbce).
    erewrite bind_inr by (apply dict_get_eq, HGP).
    do 4 (erewrite bind_inr by reflexivity).
    erewrite bind_inr by apply ood_step_eq.
    world_simpl.
    match goal with |- bind _ _ ?W = _ => replace W with w1 end.
    2: { unfold w1, ood_branch_events. world_simpl. fold e. by rewrite <- !app_assoc. }
    erewrite bind_inr by exact Hrun.
    erewrite bind_inr by reflexivity. rewrite Hmetrics.
    erewrite bind_inr by (apply dict_get_eq; by simplify_map_eq).
    erewrite bind_inr by (apply dict_get_eq; by simplify_map_eq).
    erewrite bind_inr by (apply dict_get_eq; by simplify_map_eq).
    reflexivity.
  - run_unfold. world_simpl. rewrite He2.
    split; [by rewrite <- !app_assoc|].
    destruct Hk as [Hh Hg Ho Hep Hl Hlr]. unfold w1 in Hh, Hg, Ho, Hl. world_simpl in *.
    split; [congruence|]. split; [congruence|]. split; [congruence|].
    rewrite !ood_epochs_app, Ho, !ood_epochs_app.
    destruct (195 <? e); cbn; by rewrite !app_nil_r.
Qed.

(** C6: the hook, from a world at the end of a training epoch [e]:
    after the training metrics and, past epoch 195, the OOD branch, the
    evaluator runs over the validation loader; the validation loss that
    is logged is BCE + l_gradient_penalty * gradient_penalty of the
    evaluator's metrics, among which no loss is tracked; the scheduler
    step is the last thing that happens, and it advances the schedule
    by one epoch. *)
Theorem log_results_validates_then_steps
    (cfg : Config) (nc : nat) (val_dataset : loc) (val_loader : DataLoader)
    (w : World) (loss bce GP : scalar) :
  grad_enabled w = true →
  fetchable (heap w) (dl_dataset val_loader) = true →
  metrics (trainer_state w) !! "loss" = Some loss →
  metrics (trainer_state w) !! "bce" = Some bce →
  metrics (trainer_state w) !! "gradient_penalty" = Some GP →
  let e := epoch (trainer_state w) in
  let w1 := set_log (log w ++ [EvPrint (PrintTrain e loss bce GP);
                               EvAddScalar "Loss/train" loss e]
                           ++ (if 195 <? e then ood_branch_events val_dataset e w else []))
                    w in
  ∃ w2 w' acc val_bce val_GP,
    engine_run (make_evaluator cfg nc) val_loader 1 w1 = (w2, inr ())
    ∧ metrics (evaluator_state w2) !! "accuracy" = Some acc
    ∧ metrics (evaluator_state w2) !! "bce" = Some val_bce
    ∧ metrics (evaluator_state w2) !! "gradient_penalty" = Some val_GP
    ∧ metrics (evaluator_state w2) !! "loss" = None
    ∧ log_results cfg val_dataset (make_evaluator cfg nc) val_loader w = (w', inr ())
    ∧ log w'
      = log w2
        ++ [EvPrint (PrintValid e acc (s_add val_bce (s_mul (l_gradient_penalty cfg) val_GP))
                                val_bce val_GP);
            EvAddScalar "Loss/valid"
              (s_add val_bce (s_mul (l_gradient_penalty cfg) val_GP)) e;
            EvAddScalar "BCE/valid" val_bce e;
            EvAddScalar "GP/valid" val_GP e;
            EvAddScalar "Accuracy/valid" acc e;
            EvSchedulerStep]
    ∧ last_epoch w' = S (last_epoch w)
    ∧ heap w' = heap w ∧ grad_enabled w' = true
    ∧ ood_epochs (log w') = ood_epochs (log w) ++ (if 195 <? e then [e] else []).
Proof. apply log_results_spec. Qed.

End Hook.

(** ** The training run *)

Section Training.
Context `{Sc : Scalar} `{Su : !Substrate}.

(** One training epoch with its hook. *)
Lemma trainer_epoch_spec cfg nc val_dataset val_loader train_loader e w :
  fetchable (heap w) (dl_dataset train_loader) = true →
  fetchable (heap w) (dl_dataset val_loader) = true →
  grad_enabled w = true →
  runs (run_epoch (make_trainer cfg nc val_dataset val_loader) train_loader e) w
    (λ _ w', heap w' = heap w ∧ grad_enabled w' = true
             ∧ ood_epochs (log w')
               = ood_epochs (log w) ++ (if 195 <? e then [e] else [])).
Proof.
  intros (n & Hn & Hget)%fetchable_spec Hval Hgrad.
  unfold run_epoch.
  eapply runs_bind.
  { unfold run_epoch_iterations.
    cbn [eid attached make_trainer trainer_metrics mfor fst snd].
    do 3 (eapply runs_step; [reflexivity|]; world_simpl).
    eapply runs_bind.
    { apply (loader_batches_in_range train_loader n). world_simpl. exact Hn. }
    intros batches w1 (Hk1 & Ht1 & He1 & Hrange). cbv beta in *.
    destruct Hk1 as [Hh1 Hg1 Ho1 Hep1 Hl1 Hlr1]. world_simpl in *.
    eapply runs_bind.
    { eapply (iterations_keep (make_trainer cfg nc val_dataset val_loader)
                train_loader n batches w1);
        [apply step_process_keeps | | | exact Hrange | ];
        rewrite ?Hh1, ?Hg1; assumption. }
    intros [] w2 (Hk2 & He2 & Hm2 & Ht2). cbv beta in *.
    cbn [eid make_trainer engine_state] in *.
    destruct Hk2 as [Hh2 Hg2 Ho2 Hep2 Hl2 Hlr2].
    eapply runs_step; [reflexivity|]. world_simpl.
    eapply runs_eq; [reflexivity|]. world_simpl.
    instantiate (1 := λ _ w', heap w' = heap w ∧ grad_enabled w' = true
      ∧ ood_epochs (log w') = ood_epochs (log w)
      ∧ epoch (trainer_state w') = e
      ∧ is_Some (metrics (trainer_state w') !! "loss")
      ∧ is_Some (metrics (trainer_state w') !! "bce")
      ∧ is_Some (metrics (trainer_state w') !! "gradient_penalty")).
    cbv beta. world_simpl.
    split; [congruence|]. split; [congruence|]. split.
    { rewrite !ood_epochs_app, Ho2, Ho1, !ood_epochs_app. cbn. by rewrite !app_nil_r. }
    split; [congruence|].
    split_and!; repeat (rewrite lookup_insert_ne by done);
      rewrite lookup_insert_eq; by eexists. }
  intros [] w3 (Hh3 & Hg3 & Ho3 & He3 & [loss Hloss] & [bce Hbce] & [GP HGP]).
  cbn [on_epoch_completed make_trainer].
  destruct (log_results_spec cfg nc val_dataset val_loader w3 loss bce GP)
    as (w4 & w5 & acc & vb & vg & _ & _ & _ & _ & _ & Hhook & _ & _ & Hh5 & Hg5 & Ho5);
    [congruence | by rewrite Hh3 | done | done | done |].
  eapply runs_eq; [exact Hhook|]. cbv beta.
  rewrite He3 in Ho5. split; [congruence|]. split; [done|]. congruence.
Qed.

Lemma trainer_epochs_spec cfg nc val_dataset val_loader train_loader es w :
  fetchable (heap w) (dl_dataset train_loader) = true →
  fetchable (heap w) (dl_dataset val_loader) = true →
  grad_enabled w = true →
  runs (mfor es (run_epoch (make_trainer cfg nc val_dataset val_loader) train_loader)) w
    (λ _ w', heap w' = heap w ∧ grad_enabled w' = true
             ∧ ood_epochs (log w')
               = ood_epochs (log w) ++ filter (λ e, 195 < e) es).
Proof.
  revert w. induction es as [|e es IH]; intros w Htrain Hval Hgrad; simpl.
  - apply runs_ret. by rewrite app_nil_r.
  - eapply runs_bind; [by apply trainer_epoch_spec|].
    intros [] w1 (Hh1 & Hg1 & Ho1). cbv beta in *.
    eapply runs_weaken; [apply IH; by rewrite ?Hh1|].
    intros [] w2 (Hh2 & Hg2 & Ho2). cbv beta in *.
    split; [congruence|]. split; [done|].
    rewrite Ho2, Ho1, <- app_assoc. f_equal.
    rewrite filter_cons. destruct (Nat.ltb_spec 195 e).
    + by rewrite decide_True by lia.
    + by rewrite decide_False by lia.
Qed.

Lemma trainer_run_spec cfg nc val_dataset val_loader train_loader max_epochs w :
  fetchable (heap w) (dl_dataset train_loader) = true →
  fetchable (heap w) (dl_dataset val_loader) = true →
  grad_enabled w = true →
  runs (engine_run (make_trainer cfg nc val_dataset val_loader) train_loader max_epochs) w
    (λ _ w', heap w' = heap w ∧ grad_enabled w' = true
             ∧ ood_epochs (log w')
               = ood_epochs (log w) ++ filter (λ e, 195 < e) (seq 1 max_epochs)).
Proof.
  intros Htrain Hval Hgrad. unfold engine_run.
  eapply runs_step; [reflexivity|]. cbn [eid make_trainer].
  eapply runs_weaken; [apply trainer_epochs_spec; by world_simpl|].
  intros [] w' H. exact H.
Qed.

End Training.

(** ** The whole run *)

Section Main.
Context `{Sc : Scalar} `{Su : !Substrate}.

Lemma fetchable_vision h l targets t :
  h !! l = Some (vision_object targets t) → fetchable h l = true.
Proof.
  intros Hl. unfold fetchable. rewrite (py_len_vision _ _ _ _ Hl).
  apply forallb_forall. intros i [_ Hi]%in_seq. simpl in Hi.
  destruct (lookup_lt_is_Some_2 targets i Hi) as [target Htarget].
  by rewrite (getitem_vision _ _ _ _ _ _ Hl Htarget).
Qed.

Lemma fetchable_subset h l d indices targets t :
  subset_view h l = Some (d, indices) →
  h !! d = Some (vision_object targets t) →
  (∀ j, j ∈ indices → j < length targets) →
  fetchable h l = true.
Proof.
  intros Hl Hd Hrange. unfold fetchable. rewrite (py_len_subset _ _ _ _ Hl).
  apply forallb_forall. intros i [_ Hi]%in_seq. simpl in Hi.
  destruct (lookup_lt_is_Some_2 indices i Hi) as [j Hj].
  destruct (lookup_lt_is_Some_2 targets j) as [target Htarget].
  { eapply Hrange, list_elem_of_lookup_2, Hj. }
  by rewrite (getitem_subset _ _ _ _ _ _ _ _ _ Hl Hj Hd Htarget).
Qed.

Lemma model_world_fetchable cfg ds mc w :
  fetchable (heap (model_world cfg ds mc w)) (train_dataset_of cfg w) = true
  ∧ fetchable (heap (model_world cfg ds mc w)) (val_dataset_of cfg w) = true
  ∧ fetchable (heap (model_world cfg ds mc w)) (S (next_loc w)) = true.
Proof.
  unfold model_world, prepared_world, data_world, train_dataset_of, val_dataset_of.
  world_simpl. set (w0 := set_log _ w). destruct (final_model cfg).
  - split_and!; eapply fetchable_vision;
      [apply (loaded_heap_dataset ds w0) | apply (loaded_heap_test_dataset ds w0) ..].
  - split_and!.
    + eapply fetchable_subset;
        [apply (split_heap_train ds w0) | apply (split_heap_dataset ds w0) |].
      intros j Hj. apply (idx_of_lt ds w0). eapply subseteq_take, Hj.
    + eapply fetchable_subset;
        [apply (split_heap_val ds w0) | apply (split_heap_dataset ds w0) |].
      intros j Hj. apply (idx_of_lt ds w0). eapply subseteq_drop, Hj.
    + eapply fetchable_vision, (split_heap_test_dataset ds w0).
Qed.

(** A run with a supported architecture, a positive batch size and
    evaluation sets whose sizes are multiples of 200 completes; the OOD
    evaluation ran at the epochs above 195. *)
Lemma main_completes cfg ds w mc :
  select_model_class (architecture cfg) = Some mc →
  (0 < batch_size cfg)%Z →
  len_val_dataset cfg ds mod test_batch_size = 0 →
  length (test_targets ds) mod test_batch_size = 0 →
  grad_enabled w = true →
  ∃ w', main cfg ds w = (w', inr ())
      ∧ ood_epochs (log w')
        = ood_epochs (log w) ++ filter (λ e, 195 < e) (seq 1 (Z.to_nat (epochs cfg))).
Proof.
  intros Hsel Hbs Hval Htest Hgrad.
  destruct (model_world_fetchable cfg ds mc w) as (Hftrain & Hfval & Hftest).
  assert (runs (main cfg ds) w (λ _ w',
            ood_epochs (log w')
            = ood_epochs (log w)
              ++ filter (λ e, 195 < e) (seq 1 (Z.to_nat (epochs cfg))))) as Hruns.
  { unfold main. eapply runs_step.
    { rewrite (setup_supported _ _ _ _ Hsel Hbs).
      apply Nat.eqb_eq in Hval, Htest. rewrite Hval, Htest. reflexivity. }
    cbv beta iota zeta.
    eapply runs_bind.
    { apply trainer_run_spec; cbn [dl_dataset]; assumption. }
    intros [] w1 (Hh1 & Hg1 & Ho1). cbv beta in *.
    eapply runs_bind.
    { apply evaluator_run_spec; cbn [dl_dataset]; [by rewrite Hh1 | done]. }
    intros [] w2 (Hk2 & Ht2 & acc & bce & GP & Hm2). cbv beta in *.
    eapply runs_step; [reflexivity|]. rewrite Hm2.
    eapply runs_step; [apply dict_get_eq; by simplify_map_eq|].
    do 2 (eapply runs_step; [reflexivity|]; world_simpl).
    eapply runs_eq; [reflexivity|]. world_simpl.
    rewrite !ood_epochs_app, (keeps_ood _ _ Hk2), Ho1, model_world_log, ood_epochs_app.
    cbn. by rewrite !app_nil_r. }
  destruct Hruns as ([] & w' & Hmain & Hood). by exists w'.
Qed.


End Main.

(** ** The eval step *)

Section EvalStep.
Context `{Sc : Scalar} `{Su : !Substrate}.

(** X1: the eval step, from a world where gradients are enabled, puts
    the model in eval mode, runs the forward pass on the tracked input
    and returns accuracy (against the integer labels), BCE (against the
    one-hot labels) and the gradient penalty; it starts no backward
    pass and no optimizer step, and parameters, momentum buffers,
    gradients, centroid state and learning rate are what they were. *)
Theorem eval_step_reads_only
    (cfg : Config) (nc : nat) (x : Tensor) (y : list nat) (w : World) :
  grad_enabled w = true →
  let scores := net_forward false (params w) (centroids w) (data x) in
  let acc := argmax_accuracy scores y in
  let bce := binary_cross_entropy scores (one_hot y nc) in
  let gp := s_mean (two_sided (norm_2 <$> flatten_start_dim_1
               (net_input_grad false (params w) (centroids w) (data x)))) in
  ∃ w', eval_step cfg nc (x, y) w = (w', inr (acc, bce, gp))
      ∧ log w' = log w ++ [EvModelEval; EvRequiresGrad true; EvForward]
      ∧ params w' = params w ∧ momentum w' = momentum w
      ∧ grads w' = grads w ∧ centroids w' = centroids w
      ∧ lr w' = lr w ∧ training w' = false ∧ grad_enabled w' = true.
Proof.
  intros Hg. cbv zeta. unfold eval_step. run_unfold. cbn -[s_lit]. rewrite Hg.
  cbn -[s_lit]. eexists. split; [reflexivity|].
  cbn -[s_lit]. rewrite <- !app_assoc. by rewrite Hg.
Qed.

End EvalStep.

(** ** Runs of any length, and the outcomes of the program *)

Section Outcomes.
Context `{Sc : Scalar} `{Su : !Substrate}.

Lemma filter_above_195 (n : nat) :
  filter (λ e, 195 < e) (seq 1 n) = seq 196 (n - 195).
Proof.
  induction n as [|n IH]; [done|].
  rewrite seq_S, filter_app, IH. cbn [filter list_filter].
  destruct (decide (195 < 1 + n)) as [Hlt|Hge].
  - replace (S n - 195) with (S (n - 195)) by lia.
    rewrite seq_S. do 2 f_equal. lia.
  - replace (S n - 195) with 0 by lia. replace (n - 195) with 0 by lia. done.
Qed.

(** X2: whatever the number of epochs (at least one), a run that can
    start completes, and the OOD evaluation ran at the epochs from 196
    to the last one: never in a run of 195 epochs or fewer. *)
Theorem ood_evaluation_epochs_of_any_run
    (cfg : Config) (ds : Provider) (draws : list nat)
    (p : Params) (m : Momentum) (c : Centroids) (mc : ModelClass) :
  (1 <= epochs cfg)%Z →
  select_model_class (architecture cfg) = Some mc →
  (0 < batch_size cfg <= Z.of_nat (len_train_dataset cfg ds))%Z →
  0 < len_val_dataset cfg ds →
  0 < length (test_targets ds) →
  len_val_dataset cfg ds mod test_batch_size = 0 →
  length (test_targets ds) mod test_batch_size = 0 →
  ∃ w', main cfg ds (initial_world draws p m c) = (w', inr ())
      ∧ ood_epochs (log w') = seq 196 (Z.to_nat (epochs cfg) - 195)
      ∧ ((epochs cfg <= 195)%Z → ood_epochs (log w') = []).
Proof.
  intros Hepochs Hsel [Hbs _] _ _ Hval Htest.
  destruct (main_completes cfg ds (initial_world draws p m c) mc Hsel Hbs Hval Htest)
    as (w' & Hmain & Hood); [reflexivity|].
  exists w'. split; [exact Hmain|].
  rewrite Hood, filter_above_195. cbn [log initial_world ood_epochs omap app].
  split; [done|]. intros Hle.
  by replace (Z.to_nat (epochs cfg) - 195) with 0 by lia.
Qed.

Lemma parse_args_inv (argv : Argv) (w w' : World) (cfg : Config) :
  parse_args argv w = (w', inr cfg) →
  w' = w ∧ final_model cfg = arg_final_model argv
  ∧ ∃ mc, select_model_class (architecture cfg) = Some mc.
Proof.
  unfold parse_args. destruct (arg_architecture argv) as [a|].
  - destruct (bool_decide (a ∈ architecture_choices)) eqn:Hin; [|discriminate].
    intros [= <- <-]. cbn [architecture final_model]. do 2 (split; [done|]).
    apply bool_decide_eq_true_1 in Hin. unfold architecture_choices in Hin.
    apply elem_of_cons in Hin as [->|Hin]; [by eexists|].
    apply list_elem_of_singleton in Hin as ->. by eexists.
  - intros [= <- <-]. do 2 (split; [done|]). by eexists.
Qed.

Lemma program_parsed (argv : Argv) (ds : Provider) (w : World) (cfg : Config) :
  parse_args argv w = (w, inr cfg) →
  program argv ds w
  = main cfg ds (set_log (log w ++ [EvPrint (PrintArgs cfg);
                                    EvMkdir ("runs/" +:+ output_dir cfg)]) w).
Proof.
  intros Hparse. unfold program.
  erewrite bind_inr by exact Hparse.
  do 2 (erewrite bind_inr by reflexivity). world_simpl.
  by rewrite <- app_assoc.
Qed.

(** X3: the outcomes of the program, started from the command line in a
    fresh process.  An architecture outside the choices ends it with
    exit status 2.  Otherwise the arguments parse, and then: a batch
    size that is not positive raises the loader's ValueError; a
    validation or test set size that is not a multiple of 200 raises
    the AssertionError; and with neither, at least one epoch and no
    empty loader, the program runs to completion. *)
Theorem program_outcomes
    (argv : Argv) (ds : Provider) (draws : list nat)
    (p : Params) (m : Momentum) (c : Centroids) :
  let w := initial_world draws p m c in
  let outcome := (program argv ds w).2 in
  (∀ a, arg_architecture argv = Some a → a ∉ architecture_choices →
        outcome = inl (SystemExit 2))
  ∧ ((∀ a, arg_architecture argv = Some a → a ∈ architecture_choices) →
     ∃ cfg, parse_args argv w = (w, inr cfg)
       ∧ ((batch_size cfg <= 0)%Z →
          outcome = inl (ValueError "batch_size should be a positive integer value"))
       ∧ ((0 < batch_size cfg)%Z →
          len_val_dataset cfg ds mod 200 ≠ 0 ∨ length (test_targets ds) mod 200 ≠ 0 →
          outcome = inl (AssertionError "incorrect result averaging"))
       ∧ ((0 < batch_size cfg <= Z.of_nat (len_train_dataset cfg ds))%Z →
          (1 <= epochs cfg)%Z →
          0 < len_val_dataset cfg ds → 0 < length (test_targets ds) →
          len_val_dataset cfg ds mod 200 = 0 → length (test_targets ds) mod 200 = 0 →
          outcome = inr ())).
Proof.
  intros w outcome. split.
  - intros a Harg Hnot. unfold outcome, program, parse_args. rewrite Harg.
    by rewrite (bool_decide_eq_false_2 _ Hnot).
  - intros Hin.
    assert (∃ cfg, parse_args argv w = (w, inr cfg)) as [cfg Hparse].
    { unfold parse_args. destruct (arg_architecture argv) as [a|] eqn:Harg.
      - rewrite (bool_decide_eq_true_2 _ (Hin a eq_refl)). by eexists.
      - by eexists. }
    exists cfg. split; [exact Hparse|].
    destruct (parse_args_inv _ _ _ _ Hparse) as (_ & _ & mc & Hsel).
    unfold outcome. rewrite (program_parsed _ _ _ _ Hparse).
    set (w1 := set_log _ w). split_and!.
    + intros Hbs. unfold main.
      by erewrite bind_inl by apply (setup_batch_size _ _ _ _ Hsel Hbs).
    + intros Hbs Hdiv. unfold main.
      erewrite bind_inl; [reflexivity|].
      rewrite (setup_supported _ _ _ _ Hsel Hbs).
      assert ((len_val_dataset cfg ds mod test_batch_size =? 0)
              && (length (test_targets ds) mod test_batch_size =? 0) = false) as ->;
        [|reflexivity].
      apply andb_false_iff. rewrite !Nat.eqb_neq. exact Hdiv.
    + intros [Hbs _] _ _ _ Hval Htest.
      destruct (main_completes cfg ds w1 mc Hsel Hbs Hval Htest) as (w' & Hmain & _);
        [reflexivity|].
      by rewrite Hmain.
Qed.

End Outcomes.

(** ** What the loaders visit *)

Section Coverage.
Context `{Sc : Scalar} `{Su : !Substrate}.

(** Without [drop_last] the batches, put end to end, are the sampler. *)
Lemma batch_sampler_concat_keep bs batch sampler :
  concat (batch_sampler bs false batch sampler) = batch ++ sampler.
Proof.
  revert batch. induction sampler as [|idx rest IH]; intros batch; simpl.
  - rewrite andb_true_r. destruct batch; simpl; by rewrite ?app_nil_r.
  - destruct (length (batch ++ [idx]) =? bs); simpl; rewrite IH.
    + by rewrite <- (assoc_L (++)).
    + by rewrite <- (assoc_L (++)).
Qed.

Lemma batch_sampler_full_keep bs batch sampler :
  length batch < bs →
  (length batch + length sampler) mod bs = 0 →
  Forall (λ b, length b = bs) (batch_sampler bs false batch sampler).
Proof.
  revert batch. induction sampler as [|idx rest IH]; intros batch Hlt Hmod;
    simpl in *.
  - rewrite Nat.add_0_r, Nat.mod_small in Hmod by done.
    rewrite Hmod. constructor.
  - destruct (length (batch ++ [idx]) =? bs) eqn:E.
    + apply Nat.eqb_eq in E. constructor; [exact E|].
      rewrite length_app in E. simpl in E.
      apply IH; [simpl; lia|]. simpl.
      replace (length batch + S (length rest)) with (length rest + 1 * bs) in Hmod by lia.
      by rewrite Nat.Div0.mod_add in Hmod.
    + apply Nat.eqb_neq in E. rewrite length_app in E. simpl in E.
      apply IH; rewrite length_app; simpl; [lia|].
      by replace (length batch + 1 + length rest)
        with (length batch + S (length rest)) by lia.
Qed.

(** With [drop_last] they are its longest prefix made of full batches. *)
Lemma batch_sampler_concat_drop bs batch sampler :
  length batch < bs →
  concat (batch_sampler bs true batch sampler)
  = take (bs * ((length batch + length sampler) / bs)) (batch ++ sampler).
Proof.
  revert batch. induction sampler as [|idx rest IH]; intros batch Hlt; simpl.
  - rewrite andb_false_r, Nat.add_0_r, Nat.div_small, Nat.mul_0_r by done. done.
  - destruct (length (batch ++ [idx]) =? bs) eqn:E.
    + apply Nat.eqb_eq in E. simpl. rewrite IH by (simpl; lia). simpl.
      assert (length batch + S (length rest) = length rest + 1 * bs) as ->.
      { rewrite length_app in E. simpl in E. lia. }
      rewrite Nat.div_add by lia.
      replace (bs * (length rest / bs + 1)) with (bs + bs * (length rest / bs)) by lia.
      rewrite (cons_middle idx batch rest), (assoc_L (++)).
      by rewrite (take_app_add' _ _ bs).
    + apply Nat.eqb_neq in E. rewrite length_app in E. simpl in E.
      rewrite IH by (rewrite length_app; simpl; lia).
      rewrite length_app. simpl. rewrite <- (assoc_L (++)). simpl.
      by replace (length batch + 1 + length rest)
        with (length batch + S (length rest)) by lia.
Qed.

(** X4: in a run that gets past the assertions, the validation and the
    test loader visit every example of their dataset once, in order, in
    batches of exactly 200; the training loader visits no example twice
    in an epoch and skips exactly [len mod batch_size] of them. *)
Theorem loaders_visit_each_example_once
    (cfg : Config) (ds : Provider) (w : World) (mc : ModelClass) :
  select_model_class (architecture cfg) = Some mc →
  (0 < batch_size cfg)%Z →
  len_val_dataset cfg ds mod test_batch_size = 0 →
  length (test_targets ds) mod test_batch_size = 0 →
  ∃ w' nc tr va te train_loader val_loader test_loader,
    setup cfg ds w = (w', inr (nc, tr, va, te, train_loader, val_loader, test_loader))
    ∧ runs (loader_batches val_loader) w' (λ batches w'',
        w'' = w' ∧ concat batches = seq 0 (len_val_dataset cfg ds)
        ∧ Forall (λ b, length b = 200) batches)
    ∧ runs (loader_batches test_loader) w' (λ batches w'',
        w'' = w' ∧ concat batches = seq 0 (length (test_targets ds))
        ∧ Forall (λ b, length b = 200) batches)
    ∧ runs (loader_batches train_loader) w' (λ batches _,
        NoDup (concat batches)
        ∧ (∀ i, i ∈ concat batches → i < len_train_dataset cfg ds)
        ∧ len_train_dataset cfg ds - length (concat batches)
          = len_train_dataset cfg ds mod Z.to_nat (batch_size cfg)).
Proof.
  intros Hsel Hbs Hval Htest.
  eexists _, _, _, _, _, _, _, _. split.
  { rewrite (setup_supported _ _ _ _ Hsel Hbs).
    apply Nat.eqb_eq in Hval, Htest. rewrite Hval, Htest. reflexivity. }
  split_and!.
  - unfold runs. erewrite loader_batches_eq
      by (cbn [dl_dataset]; apply prepared_world_len_val).
    cbn [dl_shuffle dl_batch_size dl_drop_last].
    eexists _, _. split; [reflexivity|]. split; [done|].
    split; [apply batch_sampler_concat_keep|].
    apply (batch_sampler_full_keep test_batch_size); cbn [length];
      [unfold test_batch_size; lia|].
    by rewrite length_seq.
  - unfold runs. erewrite loader_batches_eq
      by (cbn [dl_dataset]; apply prepared_world_len_test).
    cbn [dl_shuffle dl_batch_size dl_drop_last].
    eexists _, _. split; [reflexivity|]. split; [done|].
    split; [apply batch_sampler_concat_keep|].
    apply (batch_sampler_full_keep test_batch_size); cbn [length];
      [unfold test_batch_size; lia|].
    by rewrite length_seq.
  - unfold runs. erewrite loader_batches_eq
      by (cbn [dl_dataset]; apply model_world_len_train).
    cbn [dl_shuffle dl_batch_size dl_drop_last].
    eexists _, _. split; [reflexivity|].
    set (n := len_train_dataset cfg ds). set (bs := Z.to_nat (batch_size cfg)).
    set (perm := (random_shuffle _ (seq 0 n)).1).
    assert (perm ≡ₚ seq 0 n) as Hperm by apply random_shuffle_Permutation.
    assert (length perm = n) as Hlen.
    { by rewrite (Permutation_length Hperm), length_seq. }
    rewrite batch_sampler_concat_drop by (simpl; lia). simpl. rewrite Hlen.
    split_and!.
    + apply (sublist_NoDup _ perm); [|apply sublist_take].
      rewrite Hperm. apply NoDup_seq.
    + intros i Hi. apply subseteq_take in Hi. rewrite Hperm in Hi.
      apply elem_of_seq in Hi. lia.
    + rewrite length_take, Hlen.
      pose proof (Nat.div_mod_eq n bs). pose proof (Nat.Div0.mul_div_le n bs). lia.
Qed.

End Coverage.

(** ** The evaluation pass, exactly *)

Section EvaluationPass.
Context `{Sc : Scalar} `{Su : !Substrate}.

Lemma untouched_refl w : untouched w w.
Proof. by constructor. Qed.

Lemma untouched_trans w1 w2 w3 : untouched w1 w2 → untouched w2 w3 → untouched w1 w3.
Proof. intros [] []. constructor; congruence. Qed.

(** One evaluator iteration on a batch that can be fetched. *)
Lemma evaluator_iteration cfg nc dl batch items w :
  fetch (heap w) (dl_dataset dl) batch = inr items →
  grad_enabled w = true →
  let out := eval_output nc (params w) (centroids w) items in
  ∃ w', run_iteration (make_evaluator cfg nc) dl batch w = (w', inr ())
      ∧ untouched w w'
      ∧ log w' = log w ++ eval_iteration_events
      ∧ evaluator_state w'
        = {| epoch := epoch (evaluator_state w);
             iteration := S (iteration (evaluator_state w));
             metrics := metrics (evaluator_state w) |}
      ∧ ∀ name k, (name, k) ∈ evaluator_metrics →
          average_of w' name
          = (s_add (average_of w name).1 (output_at k out), S (average_of w name).2).
Proof.
  intros Hitems Hgrad out.
  eexists. split.
  { unfold run_iteration.
    erewrite bind_inr by reflexivity.
    erewrite bind_inr by (unfold lift; by rewrite Hitems).
    do 2 (erewrite bind_inr by reflexivity).
    cbn [eid process_function attached make_evaluator evaluator_metrics mfor fst snd].
    erewrite (bind_inr (eval_step _ _ _)); cycle 1.
    { unfold eval_step, collate. run_unfold. cbn -[s_lit]. rewrite Hgrad.
      cbn -[s_lit]. reflexivity. }
    reflexivity. }
  unfold average_of. world_simpl.
  split; [by constructor|].
  split; [by rewrite <- !app_assoc|].
  split; [done|].
  intros name k Hin. unfold evaluator_metrics in Hin.
  repeat (apply elem_of_cons in Hin as [[= -> ->]|Hin]);
    [| | | by apply elem_of_nil in Hin];
    repeat first [rewrite lookup_insert_eq | rewrite lookup_insert_ne by done];
    done.
Qed.

(** The iterations of a pass: every batch adds its output to the three
    accumulators. *)
Lemma evaluator_iterations cfg nc dl n batches w0 w :
  (∀ i, i < n → is_inr (getitem (heap w0) (dl_dataset dl) i) = true) →
  Forall (Forall (λ i, i < n)) batches →
  grad_enabled w0 = true →
  untouched w0 w →
  let outs := (λ batch, eval_output nc (params w0) (centroids w0)
                          (fetched (heap w0) (dl_dataset dl) batch)) <$> batches in
  runs (mfor batches (run_iteration (make_evaluator cfg nc) dl)) w (λ _ w',
    untouched w0 w'
    ∧ log w' = log w ++ concat (replicate (length batches) eval_iteration_events)
    ∧ evaluator_state w'
      = {| epoch := epoch (evaluator_state w);
           iteration := iteration (evaluator_state w) + length batches;
           metrics := metrics (evaluator_state w) |}
    ∧ ∀ name k, (name, k) ∈ evaluator_metrics →
        average_of w' name
        = (foldl s_add (average_of w name).1 (output_at k <$> outs),
           (average_of w name).2 + length batches)).
Proof.
  intros Hget Hbatches Hgrad. revert w.
  induction Hbatches as [|batch batches Hbatch _ IH]; intros w Hw; cbn zeta; simpl.
  - apply runs_ret. split; [done|]. split; [by rewrite app_nil_r|].
    split; [destruct (evaluator_state w); simpl; f_equal; lia|].
    intros name k _. rewrite Nat.add_0_r. by destruct (average_of w name).
  - destruct (fetch_succeeds _ _ _ _ Hget Hbatch) as [items Hitems].
    destruct (evaluator_iteration cfg nc dl batch items w)
      as (w1 & Hrun & Hu1 & Hl1 & He1 & Ha1).
    { by rewrite (untouched_heap _ _ Hw). }
    { by rewrite (untouched_grad_enabled _ _ Hw). }
    eapply runs_step; [exact Hrun|].
    eapply runs_weaken; [apply (IH w1); by eapply untouched_trans|].
    intros [] w2 (Hu2 & Hl2 & He2 & Ha2). cbv beta zeta in *.
    split; [done|].
    split; [rewrite Hl2, Hl1; by rewrite <- app_assoc|].
    split; [rewrite He2, He1; simpl; f_equal; lia|].
    intros name k Hin. rewrite (Ha2 name k Hin), (Ha1 name k Hin). simpl.
    unfold fetched. rewrite Hitems.
    rewrite (untouched_params _ _ Hw), (untouched_centroids _ _ Hw).
    f_equal. lia.
Qed.

(** A whole pass of the evaluator over a loader that does not shuffle. *)
Lemma evaluator_pass cfg nc dl n w :
  py_len (heap w) (dl_dataset dl) = inr n →
  (∀ i, i < n → is_inr (getitem (heap w) (dl_dataset dl) i) = true) →
  dl_shuffle dl = false →
  grad_enabled w = true →
  let outs := eval_outputs nc (heap w) (params w) (centroids w) dl n in
  runs (engine_run (make_evaluator cfg nc) dl 1) w (λ _ w',
    untouched w w'
    ∧ evaluator_state w'
      = {| epoch := 1; iteration := length outs;
           metrics := <["gradient_penalty" := s_mean (output_at 2 <$> outs)]>
                        (<["bce" := s_mean (output_at 1 <$> outs)]>
                           (<["accuracy" := s_mean (output_at 0 <$> outs)]> ∅)) |}
    ∧ log w' = log w ++ [EvEpochStarted Evaluator 1]
                     ++ concat (replicate (length outs) eval_iteration_events)
                     ++ [EvEpochCompleted Evaluator 1]).
Proof.
  intros Hn Hget Hshuffle Hgrad outs.
  unfold engine_run. cbn [seq mfor].
  eapply runs_step; [reflexivity|]. world_simpl.
  unfold run_epoch, run_epoch_iterations.
  cbn [eid attached on_epoch_completed make_evaluator evaluator_metrics mfor fst snd].
  eapply runs_bind; cycle 1.
  { intros a w' HQ. apply runs_ret. exact HQ. }
  eapply runs_bind; cycle 1.
  { intros a w' HQ. apply runs_ret. exact HQ. }
  do 3 (eapply runs_step; [reflexivity|]; world_simpl).
  eapply runs_step.
  { rewrite (loader_batches_eq dl n) by (world_simpl; exact Hn).
    rewrite Hshuffle. reflexivity. }
  set (batches := batch_sampler (dl_batch_size dl) (dl_drop_last dl) [] (seq 0 n)).
  assert (Forall (Forall (λ i, i < n)) batches) as Hrange.
  { apply Forall_forall. intros b Hb. apply Forall_forall. intros i Hi.
    pose proof (batch_sampler_elements _ _ _ _ _ _ Hb Hi) as Hin.
    simpl in Hin. apply elem_of_seq in Hin. lia. }
  match goal with |- runs _ ?W _ => set (w1 := W) end.
  assert (untouched w w1) as Hu1 by (by constructor).
  eapply runs_bind.
  { apply (evaluator_iterations cfg nc dl n batches w w1 Hget Hrange Hgrad Hu1). }
  intros [] w2 (Hu2 & Hl2 & He2 & Ha2). cbv beta zeta in *.
  pose proof (Ha2 "accuracy" 0) as Hacc.
  pose proof (Ha2 "bce" 1) as Hbce.
  pose proof (Ha2 "gradient_penalty" 2) as Hgp.
  unfold evaluator_metrics in Hacc, Hbce, Hgp.
  specialize (Hacc ltac:(repeat constructor)).
  specialize (Hbce ltac:(repeat constructor)).
  specialize (Hgp ltac:(repeat constructor)).
  clear Ha2. unfold average_of in Hacc, Hbce, Hgp.
  eapply runs_step; [reflexivity|]. world_simpl.
  eapply runs_eq; [reflexivity|]. world_simpl.
  rewrite Hacc, Hbce, Hgp, He2, Hl2. unfold w1. world_simpl.
  repeat first [rewrite lookup_insert_eq | rewrite lookup_insert_ne by done].
  destruct Hu2. unfold w1 in *. world_simpl in *.
  split; [by constructor|].
  unfold outs, eval_outputs. fold batches. rewrite length_fmap.
  split.
  - unfold s_mean, s_sum. rewrite !length_fmap. simpl. reflexivity.
  - by rewrite <- !app_assoc.
Qed.

Lemma batch_sampler_nonempty bs n :
  0 < n → batch_sampler bs false [] (seq 0 n) ≠ [].
Proof.
  intros Hn Hnil.
  pose proof (batch_sampler_concat_keep bs [] (seq 0 n)) as Hconcat.
  rewrite Hnil in Hconcat. simpl in Hconcat.
  apply (f_equal length) in Hconcat. rewrite length_seq in Hconcat. simpl in Hconcat. lia.
Qed.



End EvaluationPass.

(** ** The hook and the schedule *)

Section Schedule.
Context `{Sc : Scalar} `{Su : !Substrate}.

Lemma ood_epochs_iterations k :
  ood_epochs (concat (replicate k eval_iteration_events)) = [].
Proof. induction k as [|k IH]; [done|]. simpl. exact IH. Qed.

(** What the hook changes: the evaluator, the metrics, the log and the
    schedule; the model it leaves as it is. *)
Lemma log_results_frame
    (cfg : Config) (nc : nat) (val_dataset : loc) (val_loader : DataLoader)
    (w : World) (loss bce GP : scalar) :
  grad_enabled w = true →
  fetchable (heap w) (dl_dataset val_loader) = true →
  dl_shuffle val_loader = false →
  metrics (trainer_state w) !! "loss" = Some loss →
  metrics (trainer_state w) !! "bce" = Some bce →
  metrics (trainer_state w) !! "gradient_penalty" = Some GP →
  runs (log_results cfg val_dataset (make_evaluator cfg nc) val_loader) w (λ _ w',
    heap w' = heap w ∧ rng w' = rng w ∧ grad_enabled w' = true
    ∧ params w' = params w ∧ momentum w' = momentum w
    ∧ centroids w' = centroids w ∧ grads w' = grads w
    ∧ trainer_state w' = trainer_state w
    ∧ last_epoch w' = S (last_epoch w)
    ∧ lr w' = decay_at (S (last_epoch w)) (lr w)
    ∧ ood_epochs (log w')
      = ood_epochs (log w)
        ++ (if 195 <? epoch (trainer_state w) then [epoch (trainer_state w)] else [])).
Proof.
  intros Hgrad Hfetch Hshuffle Hloss Hbce HGP.
  set (e := epoch (trainer_state w)).
  set (w1 := set_log (log w ++ [EvPrint (PrintTrain e loss bce GP);
                                EvAddScalar "Loss/train" loss e]
                            ++ (if 195 <? e then ood_branch_events val_dataset e w else []))
                     w).
  destruct (fetchable_spec _ _ Hfetch) as (n & Hn & Hget).
  destruct (evaluator_pass cfg nc val_loader n w1) as ([] & w2 & Hrun & Hu & He & Hl);
    [exact Hn | exact Hget | exact Hshuffle | exact Hgrad |].
  cbv zeta in He, Hl.
  set (outs := eval_outputs nc (heap w1) (params w1) (centroids w1) val_loader n) in *.
  eapply runs_eq.
  - unfold log_results.
    erewrite bind_inr by reflexivity.
    erewrite bind_inr by (apply dict_get_eq, Hloss).
    erewrite bind_inr by (apply dict_get_eq, Hbce).
    erewrite bind_inr by (apply dict_get_eq, HGP).
    do 4 (erewrite bind_inr by reflexivity).
    erewrite bind_inr by apply ood_step_eq.
    world_simpl.
    match goal with |- bind _ _ ?W = _ => replace W with w1 end.
    2: { unfold w1, ood_branch_events. world_simpl. fold e. by rewrite <- !app_assoc. }
    erewrite bind_inr by exact Hrun.
    erewrite bind_inr by reflexivity. rewrite He. cbn [metrics].
    erewrite bind_inr by (apply dict_get_eq; by simplify_map_eq).
    erewrite bind_inr by (apply dict_get_eq; by simplify_map_eq).
    erewrite bind_inr by (apply dict_get_eq; by simplify_map_eq).
    reflexivity.
  - run_unfold. world_simpl.
    destruct Hu as [Hh _ Hr Hp Hm Hc Hgr Hge Hlr Hle Ht].
    unfold w1 in *. world_simpl in *.
    unfold decay_at. rewrite Hle, Hlr.
    repeat (split; [congruence|]).
    rewrite !ood_epochs_app, Hl, !ood_epochs_app, ood_epochs_iterations.
    destruct (195 <? e); cbn; by rewrite !app_nil_r.
Qed.


(** One training epoch with its hook, and the schedule. *)
Lemma trainer_epoch_schedule cfg nc val_dataset val_loader train_loader e w :
  fetchable (heap w) (dl_dataset train_loader) = true →
  fetchable (heap w) (dl_dataset val_loader) = true →
  dl_shuffle val_loader = false →
  grad_enabled w = true →
  runs (run_epoch (make_trainer cfg nc val_dataset val_loader) train_loader e) w
    (λ _ w', heap w' = heap w ∧ grad_enabled w' = true
             ∧ last_epoch w' = S (last_epoch w)
             ∧ lr w' = decay_at (S (last_epoch w)) (lr w)
             ∧ epoch (trainer_state w') = e
             ∧ ood_epochs (log w')
               = ood_epochs (log w) ++ (if 195 <? e then [e] else [])).
Proof.
  intros (n & Hn & Hget)%fetchable_spec Hval Hshuffle Hgrad.
  unfold run_epoch.
  eapply runs_bind.
  { unfold run_epoch_iterations.
    cbn [eid attached make_trainer trainer_metrics mfor fst snd].
    do 3 (eapply runs_step; [reflexivity|]; world_simpl).
    eapply runs_bind.
    { apply (loader_batches_in_range train_loader n). world_simpl. exact Hn. }
    intros batches w1 (Hk1 & Ht1 & He1 & Hrange). cbv beta in *.
    destruct Hk1 as [Hh1 Hg1 Ho1 Hep1 Hl1 Hlr1]. world_simpl in *.
    eapply runs_bind.
    { eapply (iterations_keep (make_trainer cfg nc val_dataset val_loader)
                train_loader n batches w1);
        [apply step_process_keeps | | | exact Hrange | ];
        rewrite ?Hh1, ?Hg1; assumption. }
    intros [] w2 (Hk2 & He2 & Hm2 & Ht2). cbv beta in *.
    cbn [eid make_trainer engine_state] in *.
    destruct Hk2 as [Hh2 Hg2 Ho2 Hep2 Hl2 Hlr2].
    eapply runs_step; [reflexivity|]. world_simpl.
    eapply runs_eq; [reflexivity|]. world_simpl.
    instantiate (1 := λ _ w', heap w' = heap w ∧ grad_enabled w' = true
      ∧ last_epoch w' = last_epoch w ∧ lr w' = lr w
      ∧ ood_epochs (log w') = ood_epochs (log w)
      ∧ epoch (trainer_state w') = e
      ∧ is_Some (metrics (trainer_state w') !! "loss")
      ∧ is_Some (metrics (trainer_state w') !! "bce")
      ∧ is_Some (metrics (trainer_state w') !! "gradient_penalty")).
    cbv beta. world_simpl.
    do 4 (split; [congruence|]). split.
    { rewrite !ood_epochs_app, Ho2, Ho1, !ood_epochs_app. cbn. by rewrite !app_nil_r. }
    split; [congruence|].
    split_and!; repeat (rewrite lookup_insert_ne by done);
      rewrite lookup_insert_eq; by eexists. }
  intros [] w3 (Hh3 & Hg3 & Hl3 & Hlr3 & Ho3 & He3 & [loss Hloss] & [bce Hbce] & [GP HGP]).
  cbn [on_epoch_completed make_trainer].
  eapply runs_weaken.
  { apply (log_results_frame cfg nc val_dataset val_loader w3 loss bce GP);
      [congruence | by rewrite Hh3 | done ..]. }
  intros [] w4 (Hh4 & _ & Hg4 & _ & _ & _ & _ & Ht4 & Hl4 & Hlr4 & Ho4). cbv beta.
  rewrite He3 in Ho4.
  split; [congruence|]. split; [done|]. split; [congruence|].
  split; [congruence|]. split; [congruence|]. congruence.
Qed.

(** The rate after the scheduler's steps into the epochs [es]. *)
Lemma trainer_epochs_schedule cfg nc val_dataset val_loader train_loader es w :
  fetchable (heap w) (dl_dataset train_loader) = true →
  fetchable (heap w) (dl_dataset val_loader) = true →
  dl_shuffle val_loader = false →
  grad_enabled w = true →
  runs (mfor es (run_epoch (make_trainer cfg nc val_dataset val_loader) train_loader)) w
    (λ _ w', heap w' = heap w ∧ grad_enabled w' = true
             ∧ last_epoch w' = last_epoch w + length es
             ∧ lr w' = foldl (λ r e, decay_at e r) (lr w)
                         (seq (S (last_epoch w)) (length es))
             ∧ ood_epochs (log w')
               = ood_epochs (log w) ++ filter (λ e, 195 < e) es).
Proof.
  revert w. induction es as [|e es IH]; intros w Htrain Hval Hshuffle Hgrad; simpl.
  - apply runs_ret. rewrite app_nil_r, Nat.add_0_r. done.
  - eapply runs_bind; [by apply trainer_epoch_schedule|].
    intros [] w1 (Hh1 & Hg1 & Hl1 & Hlr1 & _ & Ho1). cbv beta in *.
    eapply runs_weaken; [apply IH; by rewrite ?Hh1|].
    intros [] w2 (Hh2 & Hg2 & Hl2 & Hlr2 & Ho2). cbv beta in *.
    split; [congruence|]. split; [done|].
    split; [lia|].
    split; [by rewrite Hlr2, Hl1, Hlr1|].
    rewrite Ho2, Ho1, <- app_assoc. f_equal.
    rewrite filter_cons. destruct (Nat.ltb_spec 195 e).
    + by rewrite decide_True by lia.
    + by rewrite decide_False by lia.
Qed.

(** The milestones reached, one step further. *)
Lemma milestones_reached_S n :
  milestones_reached (S n)
  = milestones_reached n + (if bool_decide (S n ∈ [60; 120; 160]) then 1 else 0).
Proof.
  unfold milestones_reached.
  rewrite !filter_cons, !filter_nil.
  assert (S n ∈ [60; 120; 160] ↔ S n = 60 ∨ S n = 120 ∨ S n = 160) as Hin.
  { rewrite !elem_of_cons, elem_of_nil. tauto. }
  destruct (bool_decide (S n ∈ [60; 120; 160])) eqn:Hm.
  - apply bool_decide_eq_true_1, Hin in Hm.
    repeat case_decide; simpl; lia.
  - apply bool_decide_eq_false_1 in Hm. rewrite Hin in Hm.
    repeat case_decide; simpl; lia.
Qed.

(** From the start of the schedule, the steps decay the rate once per
    milestone reached. *)
Lemma schedule_decays rate n :
  foldl (λ r e, decay_at e r) rate (seq 1 n) = decayed (milestones_reached n) rate.
Proof.
  induction n as [|n IH]; [done|].
  rewrite seq_S, foldl_app, IH, milestones_reached_S. simpl.
  unfold decay_at. destruct (bool_decide (S n ∈ [60; 120; 160])).
  - by rewrite Nat.add_1_r.
  - by rewrite Nat.add_0_r.
Qed.

End Schedule.

(** ** Whole runs *)

Section WholeRun.
Context `{Sc : Scalar} `{Su : !Substrate}.

(** A run that starts: the schedule at its end, and how it ends. *)
Lemma main_run cfg ds w mc :
  select_model_class (architecture cfg) = Some mc →
  (0 < batch_size cfg)%Z →
  len_val_dataset cfg ds mod test_batch_size = 0 →
  length (test_targets ds) mod test_batch_size = 0 →
  grad_enabled w = true →
  ∃ w', main cfg ds w = (w', inr ())
      ∧ last_epoch w' = Z.to_nat (epochs cfg)
      ∧ lr w' = decayed (milestones_reached (Z.to_nat (epochs cfg))) (learning_rate cfg)
      ∧ ∃ before,
          log w'
          = before
            ++ [EvEpochCompleted Evaluator 1;
                EvPrint (PrintTest
                  (s_mean (output_at 0 <$>
                     eval_outputs (num_classes ds) (heap w') (params w') (centroids w')
                       (test_loader_of w) (length (test_targets ds)))));
                EvSave ("runs/" +:+ output_dir cfg +:+ "/model.pt");
                EvWriterClose].
Proof.
  intros Hsel Hbs Hval Htest Hgrad.
  destruct (model_world_fetchable cfg ds mc w) as (Hftrain & Hfval & Hftest).
  assert (runs (main cfg ds) w (λ _ w',
    last_epoch w' = Z.to_nat (epochs cfg)
    ∧ lr w' = decayed (milestones_reached (Z.to_nat (epochs cfg))) (learning_rate cfg)
    ∧ ∃ before,
        log w'
        = before
          ++ [EvEpochCompleted Evaluator 1;
              EvPrint (PrintTest
                (s_mean (output_at 0 <$>
                   eval_outputs (num_classes ds) (heap w') (params w') (centroids w')
                     (test_loader_of w) (length (test_targets ds)))));
              EvSave ("runs/" +:+ output_dir cfg +:+ "/model.pt");
              EvWriterClose])) as Hruns.
  { unfold main. eapply runs_step.
    { rewrite (setup_supported _ _ _ _ Hsel Hbs).
      apply Nat.eqb_eq in Hval, Htest. rewrite Hval, Htest. reflexivity. }
    cbv beta iota zeta. fold (test_loader_of w).
    eapply runs_bind.
    { unfold engine_run. eapply runs_step; [reflexivity|]. cbn [eid make_trainer].
      apply trainer_epochs_schedule; world_simpl; cbn [dl_dataset dl_shuffle];
        first [assumption | reflexivity]. }
    intros [] w1 (Hh1 & Hg1 & Hl1 & Hlr1 & _). cbv beta in *.
    world_simpl in *. rewrite length_seq in Hl1, Hlr1.
    assert (last_epoch (model_world cfg ds mc w) = 0) as Hl0
      by (unfold model_world; by world_simpl).
    assert (lr (model_world cfg ds mc w) = learning_rate cfg) as Hlr0
      by (unfold model_world; by world_simpl).
    rewrite Hl0 in Hl1, Hlr1. rewrite Hlr0, schedule_decays in Hlr1. simpl in Hl1.
    eapply runs_bind.
    { apply (evaluator_pass cfg (num_classes ds) (test_loader_of w)
               (length (test_targets ds)) w1).
      - rewrite Hh1. unfold model_world. world_simpl. apply prepared_world_len_test.
      - destruct (fetchable_spec _ _ Hftest) as (n & Hn & Hget).
        rewrite Hh1. cbn [dl_dataset test_loader_of].
        unfold model_world in Hn. world_simpl in *.
        rewrite prepared_world_len_test in Hn.
        assert (n = length (test_targets ds)) as -> by congruence. exact Hget.
      - reflexivity.
      - exact Hg1. }
    intros [] w2 (Hu2 & He2 & Hlog2). cbv beta zeta in *.
    eapply runs_step; [reflexivity|]. rewrite He2. cbn [metrics].
    eapply runs_step; [apply dict_get_eq; by simplify_map_eq|].
    do 2 (eapply runs_step; [reflexivity|]; world_simpl).
    eapply runs_eq; [reflexivity|]. world_simpl.
    destruct Hu2 as [Hh2 _ _ Hp2 _ Hc2 _ _ Hlr2 Hle2 _].
    split; [congruence|]. split; [congruence|].
    rewrite Hlog2, Hh2, Hp2, Hc2.
    set (outs := eval_outputs _ _ _ _ _ _).
    exists (log w1 ++ [EvEpochStarted Evaluator 1]
                   ++ concat (replicate (length outs) eval_iteration_events)).
    rewrite <- !app_assoc. reflexivity. }
  destruct Hruns as ([] & w' & Hmain & Hpost). by exists w'.
Qed.

Lemma milestones_reached_early n : n < 60 → milestones_reached n = 0.
Proof.
  intros Hn. unfold milestones_reached. rewrite !filter_cons, filter_nil.
  repeat case_decide; simpl; lia.
Qed.

Lemma milestones_reached_late n : 160 ≤ n → milestones_reached n = 3.
Proof.
  intros Hn. unfold milestones_reached. rewrite !filter_cons, filter_nil.
  repeat case_decide; simpl; lia.
Qed.

(** X8: in a run that completes (at least one epoch, a supported
    architecture, a training batch size between 1 and the training set
    size, non-empty evaluation sets in multiples of 200), the scheduler
    has stepped once per epoch, and the learning rate at the end is the
    configured one multiplied by 0.2 once for each of the milestones
    60, 120, 160 that the number of epochs reaches: unchanged below 60
    epochs, multiplied three times from 160 epochs on. *)
Theorem learning_rate_follows_milestones
    (cfg : Config) (ds : Provider) (draws : list nat)
    (p : Params) (m : Momentum) (c : Centroids) (mc : ModelClass) :
  (1 <= epochs cfg)%Z →
  select_model_class (architecture cfg) = Some mc →
  (0 < batch_size cfg <= Z.of_nat (len_train_dataset cfg ds))%Z →
  0 < len_val_dataset cfg ds → 0 < length (test_targets ds) →
  len_val_dataset cfg ds mod test_batch_size = 0 →
  length (test_targets ds) mod test_batch_size = 0 →
  ∃ w', main cfg ds (initial_world draws p m c) = (w', inr ())
      ∧ last_epoch w' = Z.to_nat (epochs cfg)
      ∧ lr w' = decayed (milestones_reached (Z.to_nat (epochs cfg))) (learning_rate cfg)
      ∧ ((epochs cfg < 60)%Z → lr w' = learning_rate cfg)
      ∧ ((160 <= epochs cfg)%Z →
         lr w' = s_mul (s_mul (s_mul (learning_rate cfg) (s_lit 2 10)) (s_lit 2 10))
                       (s_lit 2 10)).
Proof.
  intros Hepochs Hsel [Hbs _] _ _ Hval Htest.
  destruct (main_run cfg ds (initial_world draws p m c) mc Hsel Hbs Hval Htest)
    as (w' & Hmain & Hlast & Hlr & _); [reflexivity|].
  exists w'. split; [exact Hmain|]. split; [exact Hlast|]. split; [exact Hlr|].
  split; intros Hn; rewrite Hlr.
  - by rewrite milestones_reached_early by lia.
  - by rewrite milestones_reached_late by lia.
Qed.

(** X9: a run that completes ends with the evaluator's pass over the
    test set, the print of the test accuracy, the save of the model to
    runs/<output_dir>/model.pt and the close of the writer, in this
    order and with nothing after; the accuracy printed is the mean over
    the test batches of 200 of the per-batch accuracies of the model in
    its final state, the state that is saved. *)
Theorem completed_run_reports_then_saves
    (cfg : Config) (ds : Provider) (draws : list nat)
    (p : Params) (m : Momentum) (c : Centroids) (mc : ModelClass) :
  (1 <= epochs cfg)%Z →
  select_model_class (architecture cfg) = Some mc →
  (0 < batch_size cfg <= Z.of_nat (len_train_dataset cfg ds))%Z →
  0 < len_val_dataset cfg ds → 0 < length (test_targets ds) →
  len_val_dataset cfg ds mod test_batch_size = 0 →
  length (test_targets ds) mod test_batch_size = 0 →
  let w := initial_world draws p m c in
  ∃ w' before,
    main cfg ds w = (w', inr ())
    ∧ log w'
      = before
        ++ [EvEpochCompleted Evaluator 1;
            EvPrint (PrintTest
              (s_mean (output_at 0 <$>
                 eval_outputs (num_classes ds) (heap w') (params w') (centroids w')
                   (test_loader_of w) (length (test_targets ds)))));
            EvSave ("runs/" +:+ output_dir cfg +:+ "/model.pt");
            EvWriterClose].
Proof.
  intros Hepochs Hsel [Hbs _] _ _ Hval Htest w.
  destruct (main_run cfg ds w mc Hsel Hbs Hval Htest)
    as (w' & Hmain & _ & _ & before & Hlog); [reflexivity|].
  by exists w', before.
Qed.

End WholeRun.

(** ** The statements at concrete inputs *)

Section OnFloats.
#[local] Existing Instance float_scalar.
#[local] Existing Instance float_substrate.

(** The split of ten images, run: item 0 of the validation subset comes
    out of the training transform; item 0 of the test set out of the
    test transform. *)
Lemma validation_item_example :
  let w' := (prepare_data (small_config false) small_provider example_world).1 in
  (prepare_data (small_config false) small_provider example_world).2
  = inr (10, 0, 1, 2, 3)
  ∧ subset_view (heap w') 3 = Some (0, [1; 3])
  ∧ getitem (heap w') 3 0
    = inr ({| source := 1; preprocessing := TrainAugmentation |}, 1)
  ∧ getitem (heap w') 1 0
    = inr ({| source := 0; preprocessing := TestPreprocessing |}, 0).
Proof. vm_compute. done. Qed.

(** A whole final-model run of 200 epochs, executed. *)
Lemma main_example :
  let r := main (small_config true) small_provider example_world in
  r.2 = inr () ∧ ood_epochs (log r.1) = [196; 197; 198; 199; 200]
  ∧ last_epoch r.1 = 200.
Proof. vm_compute. done. Qed.

Lemma validation_items_use_training_transform_witness :
  final_model (small_config false) = false
  ∧ ∃ w' dataset test_dataset train_dataset val_dataset val_object n,
      prepare_data (small_config false) small_provider example_world
      = (w', inr (num_classes small_provider, dataset, test_dataset,
                  train_dataset, val_dataset))
      ∧ heap w' !! val_dataset = Some val_object
      ∧ attrs val_object !! "transform" = Some (PTransform TestPreprocessing)
      ∧ py_len (heap w') val_dataset = inr n
      ∧ ∀ i, i < n →
          ∃ s label, getitem (heap w') val_dataset i = inr (s, label)
                   ∧ preprocessing s = TrainAugmentation.
Proof.
  split; [reflexivity|].
  apply (validation_items_use_training_transform (small_config false)
           small_provider example_world).
  reflexivity.
Defined.


Lemma gradient_penalty_untracked_input_fails_witness :
  requires_grad (example_tensor false) = false
  ∧ ∀ y_pred : Output,
      calc_gradient_penalty (example_tensor false) y_pred
      = inl (RuntimeError "One of the differentiated Tensors does not require grad").
Proof.
  split; [reflexivity|]. intros y_pred.
  apply (gradient_penalty_untracked_input_fails (example_tensor false) y_pred).
  reflexivity.
Defined.


Lemma log_results_validates_then_steps_witness :
  fetchable (heap example_epoch_world) (dl_dataset example_val_loader) = true
  ∧ ∃ w', log_results (small_config true) 1 (make_evaluator (small_config true) 10)
            example_val_loader example_epoch_world = (w', inr ())
        ∧ last_epoch w' = S (last_epoch example_epoch_world)
        ∧ ood_epochs (log w') = ood_epochs (log example_epoch_world) ++ [196].
Proof.
  split; [vm_compute; reflexivity|].
  destruct (log_results_validates_then_steps (small_config true) 10 1 example_val_loader
              example_epoch_world (s_lit 3 4) (s_lit 3 4) (s_lit 0 1))
    as (w2 & w' & acc & bce & GP & _ & _ & _ & _ & _ & Hhook & _ & Hsched & _ & _ & Hood).
  - reflexivity.
  - vm_compute. reflexivity.
  - vm_compute. reflexivity.
  - vm_compute. reflexivity.
  - vm_compute. reflexivity.
  - exists w'. split; [exact Hhook|]. split; [exact Hsched|]. exact Hood.
Defined.

Lemma indivisible_evaluation_sizes_are_fatal_witness :
  len_val_dataset (small_config false) small_provider mod test_batch_size = 2
  ∧ (∃ w', main (small_config false) small_provider example_world
           = (w', inl (AssertionError "incorrect result averaging"))
         ∧ training_epochs (log w') = [])
  ∧ (∃ w' nc tr va te train_loader val_loader test_loader,
       setup (small_config true) small_provider example_world
       = (w', inr (nc, tr, va, te, train_loader, val_loader, test_loader))
       ∧ dl_drop_last train_loader = true
       ∧ runs (loader_batches train_loader) w' (λ batches _,
           Forall (λ b, length b = 4) batches ∧ length batches = 2)).
Proof.
  split; [vm_compute; reflexivity|]. split.
  - destruct (proj1 indivisible_evaluation_sizes_are_fatal (small_config false)
                small_provider example_world) as (w' & e & Hmain & Hepochs & He).
    { left. vm_compute. discriminate. }
    exists w'. rewrite (He WideResNet) in Hmain; [|reflexivity|reflexivity].
    split; [exact Hmain | exact Hepochs].
  - apply (proj2 indivisible_evaluation_sizes_are_fatal (small_config true)
             small_provider example_world WideResNet).
    + reflexivity.
    + reflexivity.
    + vm_compute. reflexivity.
    + vm_compute. reflexivity.
Defined.

Lemma unsupported_architecture_is_refused_witness :
  ("VGG" ∉ architecture_choices)
  ∧ ∃ w', program example_argv small_provider example_world = (w', inl (SystemExit 2))
        ∧ log w' = [EvUsageError "--architecture"]
        ∧ heap w' = ∅.
Proof.
  assert ("VGG" ∉ architecture_choices) as Hnot.
  { unfold architecture_choices. intros Hin.
    apply elem_of_cons in Hin as [Hin|Hin]; [discriminate|].
    apply elem_of_cons in Hin as [Hin|Hin]; [discriminate|].
    by apply elem_of_nil in Hin. }
  split; [exact Hnot|].
  destruct (unsupported_architecture_is_refused example_argv small_provider
              example_world "VGG" eq_refl Hnot) as (w' & Hprog & Hlog & _ & Hheap).
  exists w'. split; [exact Hprog|]. split; [exact Hlog | exact Hheap].
Defined.

Lemma evaluation_batch_size_is_200_witness :
  batch_size (small_config true) = 4%Z
  ∧ ∃ w' nc tr train_loader val_loader test_loader,
      setup (small_config true) small_provider example_world
      = (w', inr (nc, tr, 1, 1, train_loader, val_loader, test_loader))
      ∧ dl_batch_size val_loader = 200
      ∧ dl_batch_size test_loader = 200
      ∧ dl_batch_size train_loader = 4.
Proof.
  split; [reflexivity|].
  destruct (evaluation_batch_size_is_200 (small_config true) small_provider
              example_world WideResNet) as (w' & _ & _ & H); [reflexivity | reflexivity |].
  change ((len_val_dataset (small_config true) small_provider mod 200 =? 0)
          && (length (test_targets small_provider) mod 200 =? 0)) with true in H.
  destruct H as (nc & tr & train_loader & val_loader & test_loader
                 & Hsetup & _ & Hval & _ & Htest & _ & Htrain).
  exists w', nc, tr, train_loader, val_loader, test_loader.
  split; [exact Hsetup|]. split; [exact Hval|]. split; [exact Htest | exact Htrain].
Defined.

Lemma eval_step_reads_only_witness :
  grad_enabled example_world = true
  ∧ ∃ w' output,
      eval_step (small_config false) 10 (example_tensor false, [3]) example_world
      = (w', inr output)
      ∧ log w' = [EvModelEval; EvRequiresGrad true; EvForward]
      ∧ params w' = params example_world.
Proof.
  split; [reflexivity|].
  destruct (eval_step_reads_only (small_config false) 10 (example_tensor false) [3]
              example_world) as (w' & Hstep & Hlog & Hparams & _); [reflexivity|].
  exists w'. eexists. split; [exact Hstep|]. split; [exact Hlog | exact Hparams].
Defined.

Lemma ood_evaluation_epochs_of_any_run_witness :
  (1 <= epochs (example_config false))%Z
  ∧ len_val_dataset (example_config false) example_provider = 200
  ∧ ∃ w', main (example_config false) example_provider example_world = (w', inr ())
        ∧ ood_epochs (log w') = seq 196 5.
Proof.
  split; [discriminate|]. split; [vm_compute; reflexivity|].
  destruct (@ood_evaluation_epochs_of_any_run float_scalar float_substrate
              (example_config false) example_provider [3; 1; 4; 1; 5; 9; 2; 6] 0 0 0
              resnet18) as (w' & Hmain & Hood & _).
  - discriminate.
  - reflexivity.
  - split; [reflexivity|]. vm_compute. discriminate.
  - apply Nat.ltb_lt. vm_compute. reflexivity.
  - apply Nat.ltb_lt. vm_compute. reflexivity.
  - vm_compute. reflexivity.
  - vm_compute. reflexivity.
  - exists w'. split; [exact Hmain | exact Hood].
Defined.

Lemma loaders_visit_each_example_once_witness :
  len_val_dataset (small_config true) small_provider mod test_batch_size = 0
  ∧ ∃ w' nc tr va te train_loader val_loader test_loader,
      setup (small_config true) small_provider example_world
      = (w', inr (nc, tr, va, te, train_loader, val_loader, test_loader))
      ∧ runs (loader_batches val_loader) w' (λ batches w'',
          w'' = w' ∧ concat batches = seq 0 (len_val_dataset (small_config true) small_provider)
          ∧ Forall (λ b, length b = 200) batches)
      ∧ runs (loader_batches train_loader) w' (λ batches _,
          NoDup (concat batches)
          ∧ len_train_dataset (small_config true) small_provider - length (concat batches)
            = len_train_dataset (small_config true) small_provider
              mod Z.to_nat (batch_size (small_config true))).
Proof.
  split; [vm_compute; reflexivity|].
  destruct (loaders_visit_each_example_once (small_config true) small_provider
              example_world WideResNet)
    as (w' & nc & tr & va & te & train_loader & val_loader & test_loader
        & Hsetup & Hval & _ & Htrain).
  - reflexivity.
  - reflexivity.
  - vm_compute. reflexivity.
  - vm_compute. reflexivity.
  - exists w', nc, tr, va, te, train_loader, val_loader, test_loader.
    split; [exact Hsetup|]. split; [exact Hval|].
    destruct Htrain as (batches & w'' & Hrun & Hnd & _ & Hskip).
    exists batches, w''. split; [exact Hrun|]. split; [exact Hnd | exact Hskip].
Defined.




Lemma learning_rate_follows_milestones_witness :
  (160 <= epochs (example_config false))%Z
  ∧ ∃ w', main (example_config false) example_provider example_world = (w', inr ())
        ∧ last_epoch w' = 200
        ∧ lr w' = s_mul (s_mul (s_mul (s_lit 5 100) (s_lit 2 10)) (s_lit 2 10)) (s_lit 2 10).
Proof.
  split; [discriminate|].
  destruct (@learning_rate_follows_milestones float_scalar float_substrate
              (example_config false) example_provider [3; 1; 4; 1; 5; 9; 2; 6] 0 0 0
              resnet18) as (w' & Hmain & Hlast & _ & _ & Hlr).
  - discriminate.
  - reflexivity.
  - split; [reflexivity|]. vm_compute. discriminate.
  - apply Nat.ltb_lt. vm_compute. reflexivity.
  - apply Nat.ltb_lt. vm_compute. reflexivity.
  - vm_compute. reflexivity.
  - vm_compute. reflexivity.
  - exists w'. split; [exact Hmain|]. split; [exact Hlast|]. apply Hlr. discriminate.
Defined.

Lemma completed_run_reports_then_saves_witness :
  length (test_targets example_provider) mod test_batch_size = 0
  ∧ ∃ w' before acc,
      main (example_config false) example_provider example_world = (w', inr ())
      ∧ log w' = before ++ [EvEpochCompleted Evaluator 1; EvPrint (PrintTest acc);
                            EvSave "runs/results/model.pt"; EvWriterClose].
Proof.
  split; [vm_compute; reflexivity|].
  destruct (@completed_run_reports_then_saves float_scalar float_substrate
              (example_config false) example_provider [3; 1; 4; 1; 5; 9; 2; 6] 0 0 0
              resnet18) as (w' & before & Hmain & Hlog).
  - discriminate.
  - reflexivity.
  - split; [reflexivity|]. vm_compute. discriminate.
  - apply Nat.ltb_lt. vm_compute. reflexivity.
  - apply Nat.ltb_lt. vm_compute. reflexivity.
  - vm_compute. reflexivity.
  - vm_compute. reflexivity.
  - exists w', before. eexists. split; [exact Hmain|]. exact Hlog.
Defined.

End OnFloats.

Section OnReals.
#[local] Existing Instance real_scalar.
#[local] Existing Instance real_substrate.


End OnReals.
